(** * DXJob: the job handler of dxpy (src/python/dxpy/bindings/dxjob.py)

    A shallow embedding of the module [dxpy.bindings.dxjob]: the module
    level dictionary [_test_harness_jobs], the class [DXJob] with its
    methods, and the function [new_dxjob].  Python objects live in a
    store of attribute dictionaries, methods are computations in a state
    and exception monad, and the collaborators the module calls but does
    not define (the API bindings, [dxpy.run], the base class [DXObject])
    are the fields of an interface. *)

From stdpp Require Import base countable gmap strings list pretty.
From Stdlib Require Import ZArith Lia.

Open Scope Z_scope.

(** ** Python values *)

(** The values that flow through the module: [None], booleans, integers,
    strings and dictionaries with string keys (JSON objects), the latter
    as a list of items. *)
Local Unset Elimination Schemes.
Inductive pyval : Type :=
  | VNone
  | VBool (b : bool)
  | VInt (n : Z)
  | VStr (s : string)
  | VDict (items : list (string * pyval)).
Local Set Elimination Schemes.

Section pyval_induction.
Variable P : pyval → Prop.
Hypothesis HNone : P VNone.
Hypothesis HBool : ∀ b, P (VBool b).
Hypothesis HInt : ∀ n, P (VInt n).
Hypothesis HStr : ∀ s, P (VStr s).
Hypothesis HDict : ∀ items, Forall (λ kv, P kv.2) items → P (VDict items).

Fixpoint pyval_nested_ind (v : pyval) : P v :=
  match v with
  | VNone => HNone
  | VBool b => HBool b
  | VInt n => HInt n
  | VStr s => HStr s
  | VDict items =>
      HDict items
        ((fix go (l : list (string * pyval)) : Forall (λ kv, P kv.2) l :=
            match l with
            | [] => Forall_nil_2 _
            | kv :: l' => Forall_cons_2 _ kv l' (pyval_nested_ind kv.2) (go l')
            end) items)
  end.
End pyval_induction.

(** Values are sent to a generic tree to obtain decidable equality and
    countability, so that they can serve as keys of a finite map. *)
Definition pyval_leaf : Type := (unit + bool + Z + string)%type.

Fixpoint pyval_to_tree (v : pyval) : gen_tree pyval_leaf :=
  match v with
  | VNone => GenLeaf (inl (inl (inl ())))
  | VBool b => GenLeaf (inl (inl (inr b)))
  | VInt n => GenLeaf (inl (inr n))
  | VStr s => GenLeaf (inr s)
  | VDict items =>
      GenNode 0 (map (λ kv, GenNode 1 [GenLeaf (inr kv.1); pyval_to_tree kv.2]) items)
  end.

Fixpoint pyval_of_tree (t : gen_tree pyval_leaf) : option pyval :=
  match t with
  | GenLeaf (inl (inl (inl _))) => Some VNone
  | GenLeaf (inl (inl (inr b))) => Some (VBool b)
  | GenLeaf (inl (inr n)) => Some (VInt n)
  | GenLeaf (inr s) => Some (VStr s)
  | GenNode 0 ts =>
      VDict <$> mapM (λ t',
        match t' with
        | GenNode 1 [GenLeaf (inr k); tv] => pair k <$> pyval_of_tree tv
        | _ => None
        end) ts
  | GenNode _ _ => None
  end.

Lemma pyval_of_to_tree v : pyval_of_tree (pyval_to_tree v) = Some v.
Proof.
  induction v as [| | | |items IH] using pyval_nested_ind; try reflexivity.
  simpl. induction IH as [|[k w] l Hw _ IHl]; [reflexivity|].
  simpl in *. rewrite Hw. simpl.
  destruct (mapM _ _) as [l'|] eqn:E; simpl in *; [|discriminate].
  congruence.
Qed.

Global Instance pyval_eq_dec : EqDecision pyval.
Proof.
  intros x y.
  destruct (decide (pyval_to_tree x = pyval_to_tree y)) as [E|E].
  - left. apply (inj Some). by rewrite <-!pyval_of_to_tree, E.
  - right. by intros ->.
Defined.

Global Instance pyval_countable : Countable pyval :=
  inj_countable pyval_to_tree pyval_of_tree pyval_of_to_tree.

(** [v == "lit"] for a string literal: only a string with the same
    characters compares equal to it. *)
Definition py_eq_str (v : pyval) (lit : string) : bool :=
  match v with
  | VStr s => bool_decide (s = lit)
  | _ => false
  end.

(** [v is None] *)
Definition py_is_none (v : pyval) : bool :=
  match v with VNone => true | _ => false end.

(** [str(n)] for an integer: its decimal numeral. *)
Definition py_str_int (n : Z) : string := pretty n.

(** ** Exceptions and results *)

(** An exception: the name of its class and its message. *)
Record exn : Type := Exn { exn_class : string; exn_msg : string }.

Global Instance exn_eq_dec : EqDecision exn.
Proof. solve_decision. Defined.

Inductive res (A : Type) : Type :=
  | Ret (a : A)
  | Raise (e : exn).
Arguments Ret {A} a.
Arguments Raise {A} e.

(** [d[key]] on a value: a dictionary yields the item or [KeyError], any
    other value here has no items. *)
Definition py_getitem (d : pyval) (key : string) : res pyval :=
  match d with
  | VDict items =>
      match list_find (λ kv, kv.1 = key) items with
      | Some (_, (_, v)) => Ret v
      | None => Raise (Exn "KeyError" key)
      end
  | _ => Raise (Exn "TypeError" "object has no item access by name")
  end.

(** [d[key] = v] on the items of a dictionary: an existing key keeps its
    place and takes the new value, a new key goes last. *)
Fixpoint dict_setitem (items : list (string * pyval)) (key : string) (v : pyval)
    : list (string * pyval) :=
  match items with
  | [] => [(key, v)]
  | (k, w) :: rest =>
      if bool_decide (k = key) then (k, v) :: rest
      else (k, w) :: dict_setitem rest key v
  end.

(** ** The program state *)

(** Objects are referred to by address; an object is its dictionary of
    instance attributes, and an address that holds nothing yet stands for
    an object without instance attributes. *)
Definition addr : Type := positive.

(** Keyword arguments passed through to the API bindings. *)
Definition kwargs : Type := gmap string pyval.

(** The calls the module makes to its collaborators, in program order. *)
Inductive event : Type :=
  | EvJobNew (input_params : pyval) (kw : kwargs)
  | EvJobDescribe (object_id : pyval) (input_params : pyval) (kw : kwargs)
  | EvJobTerminate (object_id : pyval) (kw : kwargs)
  | EvRun (function_name function_input : pyval)
  | EvSleep (secs : Z).

Record State (Ext : Type) : Type := mkState {
  heap : gmap addr (gmap string pyval);
  _test_harness_jobs : gmap pyval addr;
  environ : gmap string string;
  ext : Ext;
  trace : list event
}.
Arguments mkState {Ext}.
Arguments heap {Ext}.
Arguments _test_harness_jobs {Ext}.
Arguments environ {Ext}.
Arguments ext {Ext}.
Arguments trace {Ext}.

(** What the module uses and does not define.  The API bindings talk to
    the remote service and act on the external world only; [dxpy.run]
    executes a function of the running program in place and may act on
    the whole state; [DXObject_attrs] holds the class attributes [DXJob]
    inherits from its base class. *)
Class Collaborators (Ext : Type) : Type := {
  api_jobNew : pyval → kwargs → Ext → res pyval * Ext;
  api_jobDescribe : pyval → pyval → kwargs → Ext → res pyval * Ext;
  api_jobTerminate : pyval → kwargs → Ext → res pyval * Ext;
  dxpy_run : pyval → pyval → State Ext → res pyval * State Ext;
  DXObject_attrs : gmap string pyval;
  sys_maxint : Z
}.

(** ** The state and exception monad *)

Section monad.
Context {Ext : Type}.

Definition M (A : Type) : Type := State Ext → res A * State Ext.

Definition ret {A} (a : A) : M A := λ s, (Ret a, s).

Definition raise {A} (e : exn) : M A := λ s, (Raise e, s).

Definition bind {A B} (m : M A) (k : A → M B) : M B := λ s,
  match m s with
  | (Ret a, s') => k a s'
  | (Raise e, s') => (Raise e, s')
  end.

(** A pure operation that may raise. *)
Definition lift {A} (r : res A) : M A := λ s, (r, s).

Definition log (ev : event) : M unit := λ s,
  (Ret (), mkState (heap s) (_test_harness_jobs s) (environ s) (ext s)
             (trace s ++ [ev])).

(** A call into the external world. *)
Definition external {A} (f : Ext → res A * Ext) : M A := λ s,
  let '(r, x) := f (ext s) in
  (r, mkState (heap s) (_test_harness_jobs s) (environ s) x (trace s)).
End monad.
Arguments M : clear implicits.

Global Instance M_ret {Ext} : MRet (M Ext) := λ A, ret.
Global Instance M_bind {Ext} : MBind (M Ext) := λ A B k m, bind m k.

(** ** Python primitives on the state *)

Section primitives.
Context {Ext : Type} `{!Collaborators Ext}.

(** The instance attributes of an object. *)
Definition obj_dict (s : State Ext) (obj : addr) : gmap string pyval :=
  default ∅ (heap s !! obj).

(** The attributes the class statement of [DXJob] defines. *)
Definition DXJob_class_attrs : gmap string pyval := {[ "_class" := VStr "job" ]}.

(** The instance attribute [name] of an object, if it has one. *)
Definition attr (s : State Ext) (obj : addr) (name : string) : option pyval :=
  obj_dict s obj !! name.

(** [obj.name]: the instance dictionary first, then the class, then its
    base class; [AttributeError] when none of them has the name. *)
Definition getattr (obj : addr) (name : string) : M Ext pyval := λ s,
  match attr s obj name with
  | Some v => (Ret v, s)
  | None =>
      match DXJob_class_attrs !! name with
      | Some v => (Ret v, s)
      | None =>
          match DXObject_attrs !! name with
          | Some v => (Ret v, s)
          | None => (Raise (Exn "AttributeError" name), s)
          end
      end
  end.

(** The state in which the instance attribute [name] of [obj] is [v]. *)
Definition store (obj : addr) (name : string) (v : pyval) (s : State Ext)
    : State Ext :=
  mkState (<[obj := <[name := v]> (obj_dict s obj)]> (heap s))
    (_test_harness_jobs s) (environ s) (ext s) (trace s).

(** [obj.name = v] *)
Definition setattr (obj : addr) (name : string) (v : pyval) : M Ext unit := λ s,
  (Ret (), store obj name v s).

(** [key in os.environ] *)
Definition environ_contains (key : string) : M Ext bool := λ s,
  (Ret (bool_decide (is_Some (environ s !! key))), s).

(** The key under which a dictionary stores a value: a dictionary
    cannot be a key, and [True] and [False] are the keys [1] and [0]. *)
Definition py_hash_key (k : pyval) : option pyval :=
  match k with
  | VDict _ => None
  | VBool b => Some (VInt (if b then 1 else 0))
  | _ => Some k
  end.

(** [len(_test_harness_jobs)] *)
Definition jobs_len : M Ext Z := λ s, (Ret (Z.of_nat (size (_test_harness_jobs s))), s).

(** The state in which the registry of local jobs has [obj] under
    the key [k]. *)
Definition register (k : pyval) (obj : addr) (s : State Ext) : State Ext :=
  mkState (heap s) (<[k := obj]> (_test_harness_jobs s)) (environ s) (ext s)
    (trace s).

(** [_test_harness_jobs[k] = obj] *)
Definition jobs_setitem (k : pyval) (obj : addr) : M Ext unit := λ s,
  match py_hash_key k with
  | None => (Raise (Exn "TypeError" "unhashable type"), s)
  | Some k' => (Ret (), register k' obj s)
  end.

(** [time.sleep(secs)]: a negative duration is refused. *)
Definition time_sleep (secs : Z) : M Ext unit :=
  if secs <? 0 then raise (Exn "IOError" "[Errno 22] Invalid argument")
  else log (EvSleep secs).

(** The calls to the collaborators, each recorded in the trace. *)
Definition dxpy_api_jobNew (input_params : pyval) (kw : kwargs) : M Ext pyval :=
  log (EvJobNew input_params kw);;
  external (api_jobNew input_params kw).

Definition dxpy_api_jobDescribe (object_id input_params : pyval) (kw : kwargs)
    : M Ext pyval :=
  log (EvJobDescribe object_id input_params kw);;
  external (api_jobDescribe object_id input_params kw).

Definition dxpy_api_jobTerminate (object_id : pyval) (kw : kwargs) : M Ext pyval :=
  log (EvJobTerminate object_id kw);;
  external (api_jobTerminate object_id kw).

Definition dxpy_run_call (function_name function_input : pyval) : M Ext pyval :=
  log (EvRun function_name function_input);;
  dxpy_run function_name function_input.

(** Allocation of a new object, without instance attributes. *)
Definition alloc : M Ext addr := λ s,
  let a := fresh (dom (heap s)) in
  (Ret a, mkState (<[a := ∅]> (heap s)) (_test_harness_jobs s) (environ s)
            (ext s) (trace s)).
End primitives.

(** ** The class [DXJob] *)

Module DXJob.
Section methods.
Context {Ext : Type} `{!Collaborators Ext}.

Definition set_id (self : addr) (dxid : pyval) : M Ext unit :=
  setattr self "_dxid" dxid.

Definition get_id (self : addr) : M Ext pyval :=
  getattr self "_dxid".

Definition __init__ (self : addr) (dxid : pyval) : M Ext unit :=
  setattr self "_test_harness_result" VNone;;
  if py_is_none dxid then ret () else set_id self dxid.

Definition new (self : addr) (fn_input fn_name : pyval) (kw : kwargs) : M Ext unit :=
  in_job ← environ_contains "DX_JOB_ID";
  if in_job : bool then
    let req_input := [] in
    let req_input := dict_setitem req_input "input" fn_input in
    let req_input := dict_setitem req_input "function" fn_name in
    resp ← dxpy_api_jobNew (VDict req_input) kw;
    dxid ← lift (py_getitem resp "id");
    set_id self dxid
  else
    result ← dxpy_run_call fn_name fn_input;
    n ← jobs_len;
    set_id self (VStr ("job-" +:+ py_str_int (n + 1)));;
    key ← get_id self;
    jobs_setitem key self;;
    setattr self "_test_harness_result" result.

(** The call [self.new(fn_input, fn_name, **kwargs)] of a caller with
    options of its own: [self] is a parameter of [new], so options that
    hold the key [self] give it two values, a [TypeError] raised before
    the body of [new] runs. *)
Definition self_given_twice : exn :=
  Exn "TypeError" "new() got multiple values for keyword argument 'self'".

Definition new_call (self : addr) (fn_input fn_name : pyval) (kw : kwargs)
    : M Ext unit :=
  match kw !! "self" with
  | Some _ => raise self_given_twice
  | None => new self fn_input fn_name kw
  end.

Definition describe (self : addr) (io : bool) (kw : kwargs) : M Ext pyval :=
  dxid ← getattr self "_dxid";
  dxpy_api_jobDescribe dxid (VDict [("io", VBool io)]) kw.

(** The call [self.describe(io=io, **kwargs)]: [io] is a parameter of
    [describe], so options that hold the key [io] as well give it two
    values; this is a [TypeError], raised before the body of [describe]
    runs. *)
Definition io_given_twice : exn :=
  Exn "TypeError" "describe() got multiple values for keyword argument 'io'".

Definition describe_call (self : addr) (io : bool) (kw : kwargs) : M Ext pyval :=
  match kw !! "io" with
  | Some _ => raise io_given_twice
  | None => describe self io kw
  end.

Definition _get_state (self : addr) (kw : kwargs) : M Ext pyval :=
  desc ← describe_call self false kw;
  lift (py_getitem desc "state").

Definition terminate (self : addr) (kw : kwargs) : M Ext unit :=
  dxid ← getattr self "_dxid";
  dxpy_api_jobTerminate dxid kw;;
  ret ().

(** The three failures [wait_on_done] raises itself. *)
Definition job_failed : exn := Exn "DXJobFailureError" "Job has failed.".
Definition job_terminated : exn := Exn "DXJobFailureError" "Job was terminated.".
Definition wait_timeout : exn :=
  Exn "DXJobFailureError" "Reached timeout while waiting for the job to finish".

(** How one pass through the body of [while True] ends: with [break],
    or at the end of the body with the new value of [elapsed]. *)
Inductive loop_ctl : Type :=
  | Break
  | Continue (elapsed : Z).

Definition wait_body (self : addr) (interval timeout : Z) (kw : kwargs)
    (elapsed : Z) : M Ext loop_ctl :=
  state ← _get_state self kw;
  if py_eq_str state "done" then ret Break
  else if py_eq_str state "failed" then raise job_failed
  else if py_eq_str state "terminated" then raise job_terminated
  else if (timeout <=? elapsed) || (elapsed <? 0) then raise wait_timeout
  else
    time_sleep interval;;
    ret (Continue (elapsed + interval)).

(** The loop as a transition system: it is at the head of the loop with
    a value of [elapsed], or it has left [wait_on_done]. *)
Inductive config : Type :=
  | Running (elapsed : Z) (s : State Ext)
  | Finished (r : res ()) (s : State Ext).

Definition wait_step (self : addr) (interval timeout : Z) (kw : kwargs)
    (c : config) : config :=
  match c with
  | Running elapsed s =>
      match wait_body self interval timeout kw elapsed s with
      | (Ret Break, s') => Finished (Ret ()) s'
      | (Ret (Continue elapsed'), s') => Running elapsed' s'
      | (Raise e, s') => Finished (Raise e) s'
      end
  | Finished _ _ => c
  end.

Fixpoint wait_steps (n : nat) (self : addr) (interval timeout : Z) (kw : kwargs)
    (c : config) : config :=
  match n with
  | O => c
  | S n' => wait_steps n' self interval timeout kw (wait_step self interval timeout kw c)
  end.

(** [wait_on_done] run for at most [fuel] passes through the loop body;
    [None] when the loop is still running after that many. *)
Definition wait_on_done (fuel : nat) (self : addr) (interval timeout : Z)
    (kw : kwargs) (s : State Ext) : option (res () * State Ext) :=
  match wait_steps fuel self interval timeout kw (Running 0 s) with
  | Finished r s' => Some (r, s')
  | Running _ _ => None
  end.

(** The default values of [interval] and [timeout]. *)
Definition default_interval : Z := 2.
Definition default_timeout : Z := sys_maxint.

(** The call [DXJob(dxid)]: a new object, initialised. *)
Definition construct (dxid : pyval) : M Ext addr :=
  self ← alloc;
  __init__ self dxid;;
  ret self.
End methods.
End DXJob.

Section new_dxjob.
Context {Ext : Type} `{!Collaborators Ext}.

Definition new_dxjob (fn_input fn_name : pyval) (kw : kwargs) : M Ext addr :=
  dxjob ← DXJob.construct VNone;
  DXJob.new_call dxjob fn_input fn_name kw;;
  ret dxjob.
End new_dxjob.

(** ** Observations on states and traces *)

Definition is_describe (ev : event) : bool :=
  match ev with EvJobDescribe _ _ _ => true | _ => false end.
Definition is_sleep (ev : event) : bool :=
  match ev with EvSleep _ => true | _ => false end.
Definition is_jobNew (ev : event) : bool :=
  match ev with EvJobNew _ _ => true | _ => false end.
Definition is_run (ev : event) : bool :=
  match ev with EvRun _ _ => true | _ => false end.

Definition count (p : event → bool) (t : list event) : nat :=
  length (filter (λ ev, p ev = true) t).

(** The synthetic identity with number [i]. *)
Definition job_id (i : nat) : pyval :=
  VStr ("job-" +:+ py_str_int (Z.of_nat i)).

(** ** Vocabulary of the properties *)

Section vocabulary.
Context {Ext : Type} `{!Collaborators Ext}.
Implicit Types (s : State Ext) (self : addr) (kw : kwargs).

(** A state is not a job of the platform when the marker is not set. *)
Definition detached s : Prop := environ s !! "DX_JOB_ID" = None.

(** The request [describe(io=False)] sends for the job [dxid]. *)
Definition describe_event (dxid : pyval) kw : event :=
  EvJobDescribe dxid (VDict [("io", VBool false)]) kw.

(** A state the wait logic keeps polling on. *)
Definition in_progress (state : pyval) : Prop :=
  py_eq_str state "done" = false ∧ py_eq_str state "failed" = false ∧
  py_eq_str state "terminated" = false.

(** Whatever the external world is, the service answers the request
    for [dxid] with a description whose state satisfies [P]. *)
Definition always_reports (dxid : pyval) kw (P : pyval → Prop) : Prop :=
  ∀ x, ∃ desc x' state,
    api_jobDescribe dxid (VDict [("io", VBool false)]) kw x = (Ret desc, x') ∧
    py_getitem desc "state" = Ret state ∧ P state.

(** Two states with the same objects, the same registry of local jobs
    and the same environment. *)
Definition same_store s s' : Prop :=
  heap s' = heap s ∧ _test_harness_jobs s' = _test_harness_jobs s ∧
  environ s' = environ s.

(** The state a configuration of the wait loop is in. *)
Definition config_state (c : DXJob.config) : State Ext :=
  match c with
  | DXJob.Running _ s => s
  | DXJob.Finished _ s => s
  end.

(** A call of [new]: the handle, the two arguments, the options. *)
Record call : Type := Call {
  call_self : addr;
  call_input : pyval;
  call_name : pyval;
  call_kwargs : kwargs
}.

(** The calls of [new] made one after the other, with the identity of
    the handle read back after each. *)
Fixpoint create_all (calls : list call) : M Ext (list pyval) :=
  match calls with
  | [] => ret []
  | c :: rest =>
      DXJob.new (call_self c) (call_input c) (call_name c) (call_kwargs c);;
      dxid ← DXJob.get_id (call_self c);
      ids ← create_all rest;
      ret (dxid :: ids)
  end.

(** The function [fn_name] run in place on [fn_input] returns, and
    leaves the registry of local jobs and the environment alone (it
    creates no job itself). *)
Definition runs_apart (fn_name fn_input : pyval) : Prop :=
  ∀ s, ∃ result s',
    dxpy_run fn_name fn_input s = (Ret result, s') ∧
    _test_harness_jobs s' = _test_harness_jobs s ∧ environ s' = environ s.

(** The keys of the registry are the synthetic identities numbered from
    1 to its size. *)
Definition numbered (jobs : gmap pyval addr) : Prop :=
  dom jobs = list_to_set (C := gset pyval) (job_id <$> seq 1 (size jobs)).

(** The state [new] leaves in detached mode when the function has
    returned [result] in the state [s1]: the three assignments. *)
Definition registered self (result : pyval) s1 : State Ext :=
  let key := job_id (S (size (_test_harness_jobs s1))) in
  store self "_test_harness_result" result
    (register key self (store self "_dxid" key s1)).

(** The state [new] leaves in a job of the platform when the service
    has answered the request and left the external world [x]. *)
Definition requested (req_input : pyval) kw (x : Ext) s : State Ext :=
  mkState (heap s) (_test_harness_jobs s) (environ s) x
    (trace s ++ [EvJobNew req_input kw]).
End vocabulary.

(** A concrete program around the module: a scripted remote service and
    two functions to run in place. *)
Module Harness.
(** The external world: the responses the service will give, in order;
    once the script is used up every job is reported as running. *)
Definition world : Type := list (res pyval).

Definition respond (x : world) : res pyval * world :=
  match x with
  | [] => (Ret (VDict [("state", VStr "running")]), [])
  | r :: x' => (r, x')
  end.

(** [add] returns the sum of the fields [a] and [b] of its input,
    [crash] raises, and there is no other function. *)
Definition run (fn_name fn_input : pyval) (s : State world) : res pyval * State world :=
  if py_eq_str fn_name "add" then
    match py_getitem fn_input "a", py_getitem fn_input "b" with
    | Ret (VInt a), Ret (VInt b) => (Ret (VInt (a + b)), s)
    | _, _ => (Raise (Exn "TypeError" "add expects two integers"), s)
    end
  else if py_eq_str fn_name "crash" then (Raise (Exn "RuntimeError" "crash"), s)
  else (Raise (Exn "KeyError" "no such function"), s).

Global Instance collaborators : Collaborators world := {|
  api_jobNew _ _ := respond;
  api_jobDescribe _ _ _ := respond;
  api_jobTerminate _ _ := respond;
  dxpy_run := run;
  DXObject_attrs := ∅;
  sys_maxint := 2 ^ 63 - 1
|}.

(** The state of a program that has just imported the module. *)
Definition initial (env : gmap string string) (x : world) : State world :=
  mkState ∅ ∅ env x [].

Definition in_job : gmap string string := {[ "DX_JOB_ID" := "job-0"%string ]}.

(** A description with the given state. *)
Definition reports (state : string) : res pyval :=
  Ret (VDict [("state", VStr state)]).

(** The state after [DXJob("job-XYZ")] in a job of the platform whose
    service will follow the script [x]; the handle is at address 1. *)
Definition remote (x : world) : State world :=
  (DXJob.construct (VStr "job-XYZ") (initial in_job x)).2.
End Harness.

(** A second program: a service on which every job stays in the state
    [running], and no function to run in place. *)
Module Busy.
Definition answer (x : ()) : res pyval * () :=
  (Ret (VDict [("id", VStr "job-XYZ"); ("state", VStr "running")]), x).

Global Instance collaborators : Collaborators () := {|
  api_jobNew _ _ := answer;
  api_jobDescribe _ _ _ := answer;
  api_jobTerminate _ _ := answer;
  dxpy_run _ _ s := (Raise (Exn "KeyError" "no such function"), s);
  DXObject_attrs := ∅;
  sys_maxint := 2 ^ 63 - 1
|}.

(** The state after [DXJob("job-XYZ")]; the handle is at address 1. *)
Definition bound : State () :=
  (DXJob.construct (VStr "job-XYZ") (mkState ∅ ∅ Harness.in_job () [])).2.
End Busy.

(** ** Properties *)

Ltac py_unfold :=
  unfold DXJob.wait_body, DXJob._get_state, DXJob.describe_call, DXJob.describe,
    DXJob.terminate,
    DXJob.set_id, DXJob.get_id, DXJob.__init__, DXJob.construct,
    dxpy_api_jobNew, dxpy_api_jobDescribe, dxpy_api_jobTerminate, dxpy_run_call,
    time_sleep, jobs_len, jobs_setitem, environ_contains, alloc, getattr, setattr,
    external, log, lift, mbind, M_bind, bind, mret, M_ret, ret, raise in *.

Section properties.
Context {Ext : Type} `{!Collaborators Ext}.
Implicit Types (s : State Ext) (self : addr) (kw : kwargs).

(** *** The calls of [describe] *)

Lemma describe_bound self io kw s dxid :
  attr s self "_dxid" = Some dxid →
  DXJob.describe self io kw s =
    let '(r, x) := api_jobDescribe dxid (VDict [("io", VBool io)]) kw (ext s) in
    (r, mkState (heap s) (_test_harness_jobs s) (environ s) x
          (trace s ++ [EvJobDescribe dxid (VDict [("io", VBool io)]) kw])).
Proof.
  intros Hb. py_unfold. rewrite Hb. simpl.
  by destruct (api_jobDescribe _ _ _ _).
Qed.

Lemma describe_returns self io kw s desc s1 :
  DXJob.describe self io kw s = (Ret desc, s1) →
  ∃ dxid, trace s1 = trace s ++ [EvJobDescribe dxid (VDict [("io", VBool io)]) kw] ∧
          heap s1 = heap s ∧ _test_harness_jobs s1 = _test_harness_jobs s ∧
          environ s1 = environ s.
Proof.
  py_unfold. intros Hd.
  repeat case_match; simplify_eq/=; eauto.
Qed.

(** *** One pass through the loop body *)

Lemma wait_step_io_twice self interval timeout kw elapsed s :
  is_Some (kw !! "io") →
  DXJob.wait_step self interval timeout kw (DXJob.Running elapsed s) =
    DXJob.Finished (Raise DXJob.io_given_twice) s.
Proof.
  intros [v Hkw].
  unfold DXJob.wait_step, DXJob.wait_body, DXJob._get_state, DXJob.describe_call.
  unfold lift, mbind, M_bind, bind. by rewrite Hkw.
Qed.

Lemma wait_step_state self interval timeout kw elapsed s :
  kw !! "io" = None →
  DXJob.wait_step self interval timeout kw (DXJob.Running elapsed s) =
    match DXJob.describe self false kw s with
    | (Raise e, s1) => DXJob.Finished (Raise e) s1
    | (Ret desc, s1) =>
        match py_getitem desc "state" with
        | Raise e => DXJob.Finished (Raise e) s1
        | Ret state =>
            if py_eq_str state "done" then DXJob.Finished (Ret ()) s1
            else if py_eq_str state "failed" then DXJob.Finished (Raise DXJob.job_failed) s1
            else if py_eq_str state "terminated"
              then DXJob.Finished (Raise DXJob.job_terminated) s1
            else if (timeout <=? elapsed) || (elapsed <? 0)
              then DXJob.Finished (Raise DXJob.wait_timeout) s1
            else if interval <? 0
              then DXJob.Finished (Raise (Exn "IOError" "[Errno 22] Invalid argument")) s1
            else DXJob.Running (elapsed + interval)
                   (mkState (heap s1) (_test_harness_jobs s1) (environ s1) (ext s1)
                      (trace s1 ++ [EvSleep interval]))
        end
    end.
Proof.
  intros Hkw.
  unfold DXJob.wait_step, DXJob.wait_body, DXJob._get_state, DXJob.describe_call.
  unfold lift, mbind, M_bind, bind. rewrite Hkw.
  destruct (DXJob.describe self false kw s) as [[desc|e] s1]; [|done].
  destruct (py_getitem desc "state") as [state|e]; [|done].
  unfold time_sleep, log, raise, ret.
  destruct (py_eq_str state "done"), (py_eq_str state "failed"),
    (py_eq_str state "terminated"), ((timeout <=? elapsed) || (elapsed <? 0)),
    (interval <? 0); done.
Qed.

Lemma wait_steps_S n self interval timeout kw c :
  DXJob.wait_steps (S n) self interval timeout kw c =
  DXJob.wait_steps n self interval timeout kw (DXJob.wait_step self interval timeout kw c).
Proof. reflexivity. Qed.

Lemma wait_steps_finished n self interval timeout kw r s :
  DXJob.wait_steps n self interval timeout kw (DXJob.Finished r s) = DXJob.Finished r s.
Proof. induction n; simpl; auto. Qed.

Lemma wait_steps_add n m self interval timeout kw c :
  DXJob.wait_steps (n + m) self interval timeout kw c =
  DXJob.wait_steps m self interval timeout kw (DXJob.wait_steps n self interval timeout kw c).
Proof. revert c. induction n; intros c; simpl; auto. Qed.

(** Once the loop has finished after [n] passes, more fuel changes
    nothing. *)
Lemma wait_on_done_fuel n fuel self interval timeout kw s r s' :
  DXJob.wait_steps n self interval timeout kw (DXJob.Running 0 s) = DXJob.Finished r s' →
  (n ≤ fuel)%nat →
  DXJob.wait_on_done fuel self interval timeout kw s = Some (r, s').
Proof.
  intros Hn Hle. unfold DXJob.wait_on_done.
  replace fuel with (n + (fuel - n))%nat by lia.
  by rewrite wait_steps_add, Hn, wait_steps_finished.
Qed.

(** A pass in which the job is still in progress and there is time
    left: one describe call, one sleep. *)
Lemma wait_step_poll self interval timeout kw elapsed s dxid desc x' state :
  kw !! "io" = None →
  attr s self "_dxid" = Some dxid →
  api_jobDescribe dxid (VDict [("io", VBool false)]) kw (ext s) = (Ret desc, x') →
  py_getitem desc "state" = Ret state → in_progress state →
  0 ≤ elapsed < timeout → 0 ≤ interval →
  DXJob.wait_step self interval timeout kw (DXJob.Running elapsed s) =
    DXJob.Running (elapsed + interval)
      (mkState (heap s) (_test_harness_jobs s) (environ s) x'
         ((trace s ++ [describe_event dxid kw]) ++ [EvSleep interval])).
Proof.
  intros Hkw Hb Hapi Hst (Hd & Hf & Ht) He Hi.
  rewrite wait_step_state, (describe_bound _ _ _ _ dxid), Hapi by done.
  rewrite Hst, Hd, Hf, Ht.
  replace (timeout <=? elapsed) with false by lia.
  replace (elapsed <? 0) with false by lia.
  replace (interval <? 0) with false by lia.
  reflexivity.
Qed.

(** A pass in which the job is still in progress and the time is up:
    one describe call, then the failure. *)
Lemma wait_step_timeout self interval timeout kw elapsed s dxid desc x' state :
  kw !! "io" = None →
  attr s self "_dxid" = Some dxid →
  api_jobDescribe dxid (VDict [("io", VBool false)]) kw (ext s) = (Ret desc, x') →
  py_getitem desc "state" = Ret state → in_progress state →
  timeout ≤ elapsed ∨ elapsed < 0 →
  DXJob.wait_step self interval timeout kw (DXJob.Running elapsed s) =
    DXJob.Finished (Raise DXJob.wait_timeout)
      (mkState (heap s) (_test_harness_jobs s) (environ s) x'
         (trace s ++ [describe_event dxid kw])).
Proof.
  intros Hkw Hb Hapi Hst (Hd & Hf & Ht) He.
  rewrite wait_step_state, (describe_bound _ _ _ _ dxid), Hapi by done.
  rewrite Hst, Hd, Hf, Ht.
  replace ((timeout <=? elapsed) || (elapsed <? 0)) with true; [done|].
  symmetry. apply orb_true_iff. lia.
Qed.
(** Passes in which the job is in progress and there is time left:
    each makes one describe call and one sleep and adds [interval] to
    [elapsed]. *)
Lemma wait_steps_polls k self interval timeout kw dxid elapsed s :
  kw !! "io" = None →
  attr s self "_dxid" = Some dxid →
  always_reports dxid kw in_progress →
  0 ≤ interval → 0 ≤ elapsed →
  (k = 0%nat ∨ elapsed + (Z.of_nat k - 1) * interval < timeout) →
  ∃ x,
    DXJob.wait_steps k self interval timeout kw (DXJob.Running elapsed s) =
      DXJob.Running (elapsed + Z.of_nat k * interval)
        (mkState (heap s) (_test_harness_jobs s) (environ s) x
           (trace s ++ mjoin (replicate k [describe_event dxid kw; EvSleep interval]))).
Proof.
  intros Hkw Hb Hrep Hi. revert elapsed s Hb.
  induction k as [|k IH]; intros elapsed s Hb He Hk.
  - exists (ext s). simpl. rewrite app_nil_r. destruct s. f_equal. lia.
  - destruct (Hrep (ext s)) as (desc & x' & state & Hapi & Hst & Hprog).
    assert (0 ≤ elapsed < timeout) as Hlt by nia.
    rewrite wait_steps_S.
    rewrite (wait_step_poll _ _ _ _ _ _ dxid desc x' state) by done.
    match goal with |- context [DXJob.Running _ ?s2] => set (s' := s2) end.
    destruct (IH (elapsed + interval) s') as [x Hx]; [done|lia|nia|].
    exists x. rewrite Hx. subst s'. simpl. f_equal; [lia|].
    f_equal. by rewrite <-!app_assoc.
Qed.

(** *** Terminal states come before the timeout *)

(** C1: when the first describe call of [wait_on_done] (made with
    options that do not hold the key [io], without which no describe call
    is made) reports the state [done], the pass through the loop body ends in a normal
    return whatever [elapsed] and [timeout] are, and [wait_on_done] with
    [timeout = 0] returns normally instead of raising the timeout
    failure. *)
Theorem wait_on_done_done_first self interval kw s desc s1 :
  kw !! "io" = None →
  DXJob.describe self false kw s = (Ret desc, s1) →
  py_getitem desc "state" = Ret (VStr "done") →
  (∀ elapsed timeout,
     DXJob.wait_step self interval timeout kw (DXJob.Running elapsed s) =
     DXJob.Finished (Ret ()) s1) ∧
  (∀ fuel, DXJob.wait_on_done (S fuel) self interval 0 kw s = Some (Ret (), s1)).
Proof.
  intros Hkw Hd Hst.
  assert (∀ elapsed timeout,
     DXJob.wait_step self interval timeout kw (DXJob.Running elapsed s) =
     DXJob.Finished (Ret ()) s1) as Hstep.
  { intros. by rewrite wait_step_state, Hd, Hst by done. }
  split; [done|]. intros fuel.
  apply (wait_on_done_fuel 1); [|lia]. simpl. apply Hstep.
Qed.

(** C2: in every pass of [wait_on_done] (with options that do not hold
    the key [io], without which no describe call is made), a description
    with state
    [failed] makes it raise the failure "Job has failed." and one with
    state [terminated] the failure "Job was terminated.", with the state
    the describe call left, so that nothing (no sleep, no further
    describe call) happens in between; the two failures and the
    timeout failure are three different exceptions. *)
Theorem wait_on_done_failed_terminated n self interval timeout kw s elapsed sn desc s1 :
  kw !! "io" = None →
  DXJob.wait_steps n self interval timeout kw (DXJob.Running 0 s) =
    DXJob.Running elapsed sn →
  DXJob.describe self false kw sn = (Ret desc, s1) →
  (py_getitem desc "state" = Ret (VStr "failed") →
     ∀ fuel, (n < fuel)%nat →
       DXJob.wait_on_done fuel self interval timeout kw s =
       Some (Raise DXJob.job_failed, s1)) ∧
  (py_getitem desc "state" = Ret (VStr "terminated") →
     ∀ fuel, (n < fuel)%nat →
       DXJob.wait_on_done fuel self interval timeout kw s =
       Some (Raise DXJob.job_terminated, s1)) ∧
  (∃ dxid, trace s1 = trace sn ++ [describe_event dxid kw]) ∧
  DXJob.job_failed ≠ DXJob.job_terminated ∧
  DXJob.job_failed ≠ DXJob.wait_timeout ∧
  DXJob.job_terminated ≠ DXJob.wait_timeout.
Proof.
  intros Hkw Hn Hd.
  assert (∀ r, DXJob.wait_step self interval timeout kw (DXJob.Running elapsed sn) =
               DXJob.Finished r s1 →
          ∀ fuel, (n < fuel)%nat →
            DXJob.wait_on_done fuel self interval timeout kw s = Some (r, s1)) as Hrun.
  { intros r Hstep fuel Hfuel. apply (wait_on_done_fuel (n + 1)); [|lia].
    rewrite wait_steps_add, Hn. simpl. apply Hstep. }
  repeat split.
  - intros Hst. apply Hrun. by rewrite wait_step_state, Hd, Hst by done.
  - intros Hst. apply Hrun. by rewrite wait_step_state, Hd, Hst by done.
  - destruct (describe_returns _ _ _ _ _ _ Hd) as (dxid & Ht & _). eauto.
  - done.
  - done.
  - done.
Qed.

(** C3: with [interval = 2], [timeout = 5], options that do not hold the
    key [io] and a service that always reports [running], three passes through the loop body complete and
    bring [elapsed] to 6; the fourth raises the timeout failure, so
    that [wait_on_done] fails with it after four describe calls and
    three sleeps of 2 seconds, and not before. *)
Theorem wait_on_done_timeout_boundary self kw s dxid :
  kw !! "io" = None →
  attr s self "_dxid" = Some dxid →
  always_reports dxid kw (λ state, state = VStr "running") →
  ∃ s3 s4,
    DXJob.wait_steps 3 self 2 5 kw (DXJob.Running 0 s) = DXJob.Running 6 s3 ∧
    DXJob.wait_step self 2 5 kw (DXJob.Running 6 s3) =
      DXJob.Finished (Raise DXJob.wait_timeout) s4 ∧
    DXJob.wait_on_done 3 self 2 5 kw s = None ∧
    (∀ fuel, (4 ≤ fuel)%nat →
       DXJob.wait_on_done fuel self 2 5 kw s = Some (Raise DXJob.wait_timeout, s4)) ∧
    trace s4 = trace s ++
      [describe_event dxid kw; EvSleep 2; describe_event dxid kw; EvSleep 2;
       describe_event dxid kw; EvSleep 2; describe_event dxid kw].
Proof.
  intros Hkw Hb Hrep.
  assert (always_reports dxid kw in_progress) as Hprog.
  { intros x. destruct (Hrep x) as (desc & x' & state & ? & ? & ->).
    exists desc, x', (VStr "running"). by repeat split. }
  destruct (wait_steps_polls 3 self 2 5 kw dxid 0 s) as [x3 H3];
    [done|done|done|lia|lia|lia|].
  change (0 + Z.of_nat 3 * 2) with 6 in H3.
  match type of H3 with _ = DXJob.Running _ ?s' => set (s3 := s') in * end.
  destruct (Hprog (ext s3)) as (desc & x4 & state & Hapi & Hst & Hin).
  pose proof (wait_step_timeout self 2 5 kw 6 s3 dxid desc x4 state) as H4.
  specialize (H4 Hkw Hb Hapi Hst Hin ltac:(lia)).
  match type of H4 with _ = DXJob.Finished _ ?s' => set (s4 := s') in * end.
  exists s3, s4. split; [exact H3|]. split; [exact H4|]. split; [|split].
  - unfold DXJob.wait_on_done. by rewrite H3.
  - intros fuel Hfuel. apply (wait_on_done_fuel 4); [|done].
    change 4%nat with (3 + 1)%nat. rewrite wait_steps_add, H3. simpl. exact H4.
  - subst s4 s3. simpl. by rewrite <-app_assoc.
Qed.
(** *** What a call of [wait_on_done] can touch *)

Lemma same_store_refl s : same_store s s.
Proof. by repeat split. Qed.

Lemma same_store_trans s1 s2 s3 :
  same_store s1 s2 → same_store s2 s3 → same_store s1 s3.
Proof. unfold same_store. intros (-> & -> & ->) (-> & -> & ->). done. Qed.

Lemma count_snoc p (t : list event) ev :
  count p (t ++ [ev]) = (count p t + (if p ev then 1 else 0))%nat.
Proof.
  unfold count. rewrite filter_app, length_app. f_equal.
  rewrite filter_cons, filter_nil. destruct (p ev); by case_decide.
Qed.

Lemma describe_effect self io kw s r s1 :
  DXJob.describe self io kw s = (r, s1) →
  same_store s s1 ∧
  (count is_describe (trace s1) ≤ S (count is_describe (trace s)))%nat.
Proof.
  py_unfold. unfold same_store. intros Hd.
  repeat case_match; simplify_eq/=; repeat split; try lia;
    rewrite count_snoc; simpl; lia.
Qed.

(** One pass either leaves [wait_on_done], or comes back to the head of
    the loop with [interval] added to an [elapsed] that was within the
    timeout; it makes at most one describe call. *)
Lemma wait_step_cases self interval timeout kw elapsed s :
  ∃ s',
    ((∃ r, DXJob.wait_step self interval timeout kw (DXJob.Running elapsed s) =
           DXJob.Finished r s') ∨
     (DXJob.wait_step self interval timeout kw (DXJob.Running elapsed s) =
        DXJob.Running (elapsed + interval) s' ∧ 0 ≤ elapsed < timeout)) ∧
    same_store s s' ∧
    (count is_describe (trace s') ≤ S (count is_describe (trace s)))%nat.
Proof.
  destruct (kw !! "io") as [v|] eqn:Hkw.
  { rewrite wait_step_io_twice by done. exists s.
    split; [left; eauto|]. split; [apply same_store_refl|lia]. }
  rewrite wait_step_state by done.
  destruct (DXJob.describe self false kw s) as [[desc|e] s1] eqn:Hd;
    apply describe_effect in Hd as [Hs Hc]; [|by eauto 10].
  destruct (py_getitem desc "state") as [state|e]; [|by eauto 10].
  destruct (py_eq_str state "done"); [by eauto 10|].
  destruct (py_eq_str state "failed"); [by eauto 10|].
  destruct (py_eq_str state "terminated"); [by eauto 10|].
  destruct ((timeout <=? elapsed) || (elapsed <? 0)) eqn:Ht; [by eauto 10|].
  destruct (interval <? 0); [by eauto 10|].
  apply orb_false_iff in Ht as [? ?].
  eexists. split; [right; split; [reflexivity|lia]|].
  split; [exact Hs|]. simpl. rewrite count_snoc. simpl. lia.
Qed.

(** The loop leaves [wait_on_done] within [k + 1] passes once
    [k] more sleeps bring [elapsed] to the timeout. *)
Lemma wait_steps_bounded k self interval timeout kw elapsed s :
  1 ≤ interval → 0 ≤ elapsed → timeout ≤ elapsed + Z.of_nat k * interval →
  ∃ n r s',
    (1 ≤ n ≤ S k)%nat ∧
    DXJob.wait_steps n self interval timeout kw (DXJob.Running elapsed s) =
      DXJob.Finished r s' ∧
    same_store s s' ∧
    (count is_describe (trace s') ≤ count is_describe (trace s) + n)%nat.
Proof.
  intros Hi. revert elapsed s.
  induction k as [|k IH]; intros elapsed s He Hk;
    destruct (wait_step_cases self interval timeout kw elapsed s)
      as (s1 & [[r Hstep]|[Hstep Hlt]] & Hs & Hc).
  - exists 1%nat, r, s1. split; [lia|]. split; [exact Hstep|]. split; [exact Hs|lia].
  - lia.
  - exists 1%nat, r, s1. split; [lia|]. split; [exact Hstep|]. split; [exact Hs|lia].
  - destruct (IH (elapsed + interval) s1) as (n & r & s' & Hn & Hrun & Hs' & Hc');
      [lia|lia|].
    exists (S n), r, s'. split; [lia|]. split.
    { by rewrite wait_steps_S, Hstep. }
    split; [by eapply same_store_trans|lia].
Qed.

(** However many passes are made, the state is only changed in its
    external world and its trace. *)
Lemma wait_steps_same_store n self interval timeout kw elapsed s :
  ∃ s', same_store s s' ∧
    ((∃ r, DXJob.wait_steps n self interval timeout kw (DXJob.Running elapsed s) =
           DXJob.Finished r s') ∨
     (∃ e, DXJob.wait_steps n self interval timeout kw (DXJob.Running elapsed s) =
           DXJob.Running e s')).
Proof.
  revert elapsed s. induction n as [|n IH]; intros elapsed s.
  - exists s. split; [apply same_store_refl|]. right. by exists elapsed.
  - destruct (wait_step_cases self interval timeout kw elapsed s)
      as (s1 & [[r Hstep]|[Hstep Hlt]] & Hs & _); rewrite wait_steps_S, Hstep.
    + exists s1. split; [done|]. left. exists r. apply wait_steps_finished.
    + destruct (IH (elapsed + interval) s1) as (s' & Hs' & Hrun).
      exists s'. split; [by eapply same_store_trans|done].
Qed.

(** *** Termination *)

(** C9: for [interval >= 1] and [timeout >= 0], [wait_on_done] leaves
    the loop after at most [timeout / interval + 2] passes, whatever the
    service answers, and so makes at most that many describe calls;
    with [interval = 0], a positive [timeout], options that do not hold
    the key [io] and a service that always reports a state in progress,
    the loop is at its head with
    [elapsed = 0] after any number of passes, and [wait_on_done] does
    not return for any amount of fuel. *)
Theorem wait_on_done_termination self kw s :
  (∀ interval timeout, 1 ≤ interval → 0 ≤ timeout →
     ∃ n r s',
       Z.of_nat n ≤ timeout / interval + 2 ∧
       (∀ fuel, (n ≤ fuel)%nat →
          DXJob.wait_on_done fuel self interval timeout kw s = Some (r, s')) ∧
       Z.of_nat (count is_describe (trace s')) ≤
         Z.of_nat (count is_describe (trace s)) + timeout / interval + 2) ∧
  (∀ timeout dxid, 0 < timeout →
     kw !! "io" = None →
     attr s self "_dxid" = Some dxid →
     always_reports dxid kw in_progress →
     (∀ n, ∃ sn, DXJob.wait_steps n self 0 timeout kw (DXJob.Running 0 s) =
                 DXJob.Running 0 sn) ∧
     (∀ fuel, DXJob.wait_on_done fuel self 0 timeout kw s = None)).
Proof.
  split.
  - intros interval timeout Hi Ht.
    assert (0 ≤ timeout / interval) as Hq by (apply Z.div_pos; lia).
    pose proof (Z.mul_succ_div_gt timeout interval ltac:(lia)) as Hdiv.
    destruct (wait_steps_bounded (Z.to_nat (timeout / interval + 1))
                self interval timeout kw 0 s) as (n & r & s' & Hn & Hrun & _ & Hc);
      [done|lia|nia|].
    exists n, r, s'. split; [lia|]. split; [|lia].
    intros fuel Hfuel. by apply (wait_on_done_fuel n).
  - intros timeout dxid Ht Hkw Hb Hrep.
    assert (∀ n, ∃ sn, DXJob.wait_steps n self 0 timeout kw (DXJob.Running 0 s) =
                       DXJob.Running 0 sn) as Hloop.
    { intros n.
      destruct (wait_steps_polls n self 0 timeout kw dxid 0 s) as [x Hx];
        [done|done|done|lia|lia|lia|].
      replace (0 + Z.of_nat n * 0) with 0 in Hx by lia. eauto. }
    split; [done|]. intros fuel. unfold DXJob.wait_on_done.
    destruct (Hloop fuel) as [sn ->]. done.
Qed.
(** *** Creation of jobs *)

Global Instance job_id_inj : Inj (=) (=) job_id.
Proof.
  intros i j Hij. unfold job_id, py_str_int in Hij.
  injection Hij as Hij.
  change (pretty (Z.of_nat i) = pretty (Z.of_nat j)) in Hij.
  apply (inj pretty) in Hij. lia.
Qed.

(** *** Reading and writing attributes *)

Lemma attr_store obj name v obj' name' s :
  attr (store obj name v s) obj' name' =
  if decide (obj = obj' ∧ name = name') then Some v else attr s obj' name'.
Proof.
  unfold attr, obj_dict, store. cbn [heap].
  destruct (decide (obj = obj')) as [->|Hobj].
  - rewrite lookup_insert_eq. cbn.
    destruct (decide (name = name')) as [->|Hname].
    + rewrite lookup_insert_eq. by rewrite decide_True.
    + rewrite lookup_insert_ne by done. rewrite decide_False by tauto. done.
  - rewrite lookup_insert_ne by done. rewrite decide_False by tauto. done.
Qed.

Lemma attr_store_eq obj name v s : attr (store obj name v s) obj name = Some v.
Proof. rewrite attr_store. by rewrite decide_True. Qed.

Lemma getattr_instance obj name v s :
  attr s obj name = Some v → getattr obj name s = (Ret v, s).
Proof. unfold getattr. by intros ->. Qed.

Lemma new_detached_returns self fn_input fn_name kw s result s1 :
  detached s →
  dxpy_run_call fn_name fn_input s = (Ret result, s1) →
  DXJob.new self fn_input fn_name kw s = (Ret (), registered self result s1).
Proof.
  unfold detached, DXJob.new, environ_contains. intros Hm Hrun.
  unfold mbind at 1, M_bind at 1, bind at 1. rewrite Hm.
  rewrite bool_decide_eq_false_2 by (by intros [? ?]).
  unfold mbind at 1, M_bind at 1, bind at 1. rewrite Hrun.
  unfold registered, job_id, jobs_len, DXJob.set_id, DXJob.get_id, setattr.
  unfold mbind, M_bind, bind.
  replace (Z.of_nat (size (_test_harness_jobs s1)) + 1)
    with (Z.of_nat (S (size (_test_harness_jobs s1)))) by lia.
  erewrite getattr_instance by apply attr_store_eq.
  reflexivity.
Qed.

Lemma new_detached_raises self fn_input fn_name kw s e s1 :
  detached s →
  dxpy_run_call fn_name fn_input s = (Raise e, s1) →
  DXJob.new self fn_input fn_name kw s = (Raise e, s1).
Proof.
  unfold detached, DXJob.new, environ_contains. intros Hm Hrun.
  unfold mbind at 1, M_bind at 1, bind at 1. rewrite Hm.
  rewrite bool_decide_eq_false_2 by (by intros [? ?]).
  unfold mbind at 1, M_bind at 1, bind at 1. by rewrite Hrun.
Qed.

Lemma new_remote_eq self fn_input fn_name kw s :
  is_Some (environ s !! "DX_JOB_ID") →
  let req_input := VDict [("input", fn_input); ("function", fn_name)] in
  let s1 := requested req_input kw (api_jobNew req_input kw (ext s)).2 s in
  DXJob.new self fn_input fn_name kw s =
    match (api_jobNew req_input kw (ext s)).1 with
    | Raise e => (Raise e, s1)
    | Ret resp =>
        match py_getitem resp "id" with
        | Raise e => (Raise e, s1)
        | Ret dxid => (Ret (), store self "_dxid" dxid s1)
        end
    end.
Proof.
  intros Hm req_input s1. subst s1 req_input.
  unfold DXJob.new, environ_contains.
  unfold mbind at 1, M_bind at 1, bind at 1.
  rewrite bool_decide_eq_true_2 by done.
  py_unfold. unfold requested. simpl.
  destruct (api_jobNew _ kw (ext s)) as [[resp|e] x]; simpl; [|done].
  destruct (py_getitem resp "id"); done.
Qed.
Lemma numbered_insert jobs obj :
  numbered jobs →
  let key := job_id (S (size jobs)) in
  jobs !! key = None ∧ size (<[key := obj]> jobs) = S (size jobs) ∧
  numbered (<[key := obj]> jobs).
Proof.
  intros Hnum key.
  assert (jobs !! key = None) as Hfresh.
  { apply not_elem_of_dom. rewrite Hnum, elem_of_list_to_set.
    intros (i & Hi%(inj job_id) & Hin)%list_elem_of_fmap.
    apply elem_of_seq in Hin. lia. }
  split; [done|]. split; [by apply map_size_insert_None|].
  unfold numbered. rewrite map_size_insert_None by done.
  rewrite dom_insert_L, Hnum, seq_S, fmap_app, list_to_set_app_L.
  cbn [fmap list_fmap list_to_set foldr]. rewrite (right_id_L ∅ (∪)).
  apply (comm_L (∪)).
Qed.

Lemma get_id_registered self result s1 :
  DXJob.get_id self (registered self result s1) =
  (Ret (job_id (S (size (_test_harness_jobs s1)))), registered self result s1).
Proof.
  apply getattr_instance. unfold registered.
  rewrite attr_store, decide_False by (intros [_ ?]; done).
  apply attr_store_eq.
Qed.

Lemma create_all_numbered calls s :
  detached s → numbered (_test_harness_jobs s) →
  Forall (λ c, runs_apart (call_name c) (call_input c)) calls →
  ∃ s',
    create_all calls s =
      (Ret (job_id <$> seq (S (size (_test_harness_jobs s))) (length calls)), s') ∧
    numbered (_test_harness_jobs s') ∧
    size (_test_harness_jobs s') = (size (_test_harness_jobs s) + length calls)%nat.
Proof.
  intros Hm Hnum Hruns. revert s Hm Hnum.
  induction Hruns as [|c calls Hc _ IH]; intros s Hm Hnum.
  - exists s. simpl. split; [done|]. split; [done|lia].
  - destruct (Hc (mkState (heap s) (_test_harness_jobs s) (environ s) (ext s)
                    (trace s ++ [EvRun (call_name c) (call_input c)])))
      as (result & s1 & Hrun & Hjobs & Henv).
    simpl in Hjobs, Henv.
    assert (dxpy_run_call (call_name c) (call_input c) s = (Ret result, s1)) as Hcall
      by exact Hrun.
    pose proof (new_detached_returns (call_self c) _ _ (call_kwargs c) _ _ _ Hm Hcall)
      as Hnew.
    rewrite <-Hjobs in Hnum.
    destruct (numbered_insert _ (call_self c) Hnum) as (_ & Hsize & Hnum').
    destruct (IH (registered (call_self c) result s1)) as (s' & Hrest & Hnum'' & Hsize').
    { unfold detached. simpl. by rewrite Henv. }
    { exact Hnum'. }
    exists s'. split; [|split; [done|]].
    + cbn [create_all]. unfold mbind at 1, M_bind at 1, bind at 1. rewrite Hnew.
      unfold mbind at 1, M_bind at 1, bind at 1. rewrite get_id_registered.
      unfold mbind at 1, M_bind at 1, bind at 1. rewrite Hrest.
      unfold ret. cbn [length seq fmap list_fmap].
      change (_test_harness_jobs (registered (call_self c) result s1))
        with (<[job_id (S (size (_test_harness_jobs s1))) := call_self c]>
                (_test_harness_jobs s1)).
      by rewrite Hsize, Hjobs.
    + rewrite Hsize'.
      change (_test_harness_jobs (registered (call_self c) result s1))
        with (<[job_id (S (size (_test_harness_jobs s1))) := call_self c]>
                (_test_harness_jobs s1)).
      rewrite Hsize, Hjobs. simpl. lia.
Qed.

(** C4: in a program that is not a job of the platform and whose
    registry of local jobs is empty, [N] calls of [new] made one after
    the other, each running a function that returns and creates no job
    itself, give the identities [job-1], ..., [job-N] in this order;
    these are pairwise different, and afterwards they are exactly the
    keys of the registry, which has [N] entries. *)
Theorem detached_identities calls s :
  detached s → _test_harness_jobs s = ∅ →
  Forall (λ c, runs_apart (call_name c) (call_input c)) calls →
  ∃ s',
    create_all calls s = (Ret (job_id <$> seq 1 (length calls)), s') ∧
    NoDup (job_id <$> seq 1 (length calls)) ∧
    dom (_test_harness_jobs s') =
      list_to_set (C := gset pyval) (job_id <$> seq 1 (length calls)) ∧
    size (_test_harness_jobs s') = length calls.
Proof.
  intros Hm Hempty Hruns.
  destruct (create_all_numbered calls s) as (s' & Hall & Hnum & Hsize);
    [done| |done|].
  { rewrite Hempty. unfold numbered. by rewrite dom_empty_L, map_size_empty. }
  rewrite Hempty, map_size_empty in Hall, Hsize. simpl in Hsize.
  exists s'. split; [exact Hall|]. split.
  { apply (NoDup_fmap_2 _), NoDup_seq. }
  split; [|done]. unfold numbered in Hnum. by rewrite Hsize in Hnum.
Qed.

(** C5: in a job of the platform, [new] sends one request to create a
    job, whose [input] field is the function input and whose [function]
    field is the function name, with the options it was given; it does
    not run the function in place; an exception of the service comes
    out of [new] as it is, and an answer with an [id] field makes that
    field the identity of the handle. *)
Theorem new_remote self fn_input fn_name kw s :
  is_Some (environ s !! "DX_JOB_ID") →
  let req_input := VDict [("input", fn_input); ("function", fn_name)] in
  let answer := api_jobNew req_input kw (ext s) in
  let s1 := requested req_input kw answer.2 s in
  let s' := (DXJob.new self fn_input fn_name kw s).2 in
  py_getitem req_input "input" = Ret fn_input ∧
  py_getitem req_input "function" = Ret fn_name ∧
  trace s' = trace s ++ [EvJobNew req_input kw] ∧
  count is_jobNew (trace s') = S (count is_jobNew (trace s)) ∧
  count is_run (trace s') = count is_run (trace s) ∧
  (∀ e, answer.1 = Raise e →
     DXJob.new self fn_input fn_name kw s = (Raise e, s1)) ∧
  (∀ resp dxid, answer.1 = Ret resp → py_getitem resp "id" = Ret dxid →
     DXJob.new self fn_input fn_name kw s = (Ret (), store self "_dxid" dxid s1) ∧
     DXJob.get_id self s' = (Ret dxid, s')).
Proof.
  intros Hm req_input answer s1 s'.
  pose proof (new_remote_eq self fn_input fn_name kw s Hm) as Hnew.
  cbn zeta in Hnew. fold req_input answer s1 in Hnew.
  assert (trace s' = trace s ++ [EvJobNew req_input kw]) as Htrace.
  { subst s'. rewrite Hnew.
    destruct answer.1 as [resp|e]; [|done].
    destruct (py_getitem resp "id"); done. }
  split; [done|]. split; [done|]. split; [done|].
  split; [by rewrite Htrace, count_snoc; simpl; lia|].
  split; [by rewrite Htrace, count_snoc; simpl; lia|].
  split.
  - intros e He. by rewrite Hnew, He.
  - intros resp dxid Hresp Hid.
    assert (DXJob.new self fn_input fn_name kw s = (Ret (), store self "_dxid" dxid s1))
      as Heq by (by rewrite Hnew, Hresp, Hid).
    split; [done|]. subst s'. rewrite Heq. simpl.
    apply getattr_instance, attr_store_eq.
Qed.

(** C8: when the program is not a job of the platform and the function
    run in place raises, [new] raises the same exception and leaves the
    state the function left; so the identity of the handle, its local
    result and the registry of local jobs, which the function has not
    touched, are what they were before the call. *)
Theorem new_detached_failure self fn_input fn_name kw s e s1 :
  detached s →
  dxpy_run_call fn_name fn_input s = (Raise e, s1) →
  heap s1 = heap s → _test_harness_jobs s1 = _test_harness_jobs s →
  ∃ s',
    DXJob.new self fn_input fn_name kw s = (Raise e, s') ∧ s' = s1 ∧
    attr s' self "_dxid" = attr s self "_dxid" ∧
    attr s' self "_test_harness_result" = attr s self "_test_harness_result" ∧
    heap s' = heap s ∧
    _test_harness_jobs s' = _test_harness_jobs s.
Proof.
  intros Hm Hrun Hheap Hjobs. exists s1.
  split; [by apply new_detached_raises|]. split; [done|].
  unfold attr, obj_dict. by rewrite Hheap.
Qed.
(** *** Identity of a handle *)

(** C6, as the code has it: [set_id] returns normally and replaces the
    identity of the handle, which [get_id] then returns, and changes
    nothing else: the attribute [_dxid] of the handle is the only thing
    written, so that the local result and every other attribute of the
    handle, the other objects, the registry of local jobs, the
    environment, the external world and the trace are what they were. *)
Theorem set_id_rebinds self dxid s :
  ∃ s',
    DXJob.set_id self dxid s = (Ret (), s') ∧
    DXJob.get_id self s' = (Ret dxid, s') ∧
    attr s' self "_test_harness_result" = attr s self "_test_harness_result" ∧
    _test_harness_jobs s' = _test_harness_jobs s ∧
    (∀ obj name, obj ≠ self → attr s' obj name = attr s obj name) ∧
    attr s' self "_dxid" = Some dxid ∧
    (∀ name, name ≠ "_dxid" → attr s' self name = attr s self name) ∧
    heap s' = <[self := <["_dxid" := dxid]> (obj_dict s self)]> (heap s) ∧
    environ s' = environ s ∧ ext s' = ext s ∧ trace s' = trace s ∧
    s' = store self "_dxid" dxid s.
Proof.
  exists (store self "_dxid" dxid s). split; [done|].
  split; [apply getattr_instance, attr_store_eq|].
  split; [by rewrite attr_store, decide_False by (intros [_ ?]; done)|].
  split; [done|].
  split.
  { intros obj name Hobj. rewrite attr_store, decide_False; [done|].
    intros [-> _]. done. }
  split; [apply attr_store_eq|].
  split.
  { intros name Hname. rewrite attr_store, decide_False; [done|].
    intros [_ ?]. congruence. }
  done.
Qed.

(** C7, as the code has it: [__init__] without an identity does not
    create the attribute [_dxid], so that, the base class defining no
    such attribute either, [get_id] on a handle that was never bound
    raises [AttributeError]; and [DXJob()] gives such a handle. *)
Theorem get_id_unbound s :
  DXObject_attrs !! "_dxid" = None →
  (∀ self, attr s self "_dxid" = None →
     DXJob.get_id self s = (Raise (Exn "AttributeError" "_dxid"), s)) ∧
  (∃ self s',
     DXJob.construct VNone s = (Ret self, s') ∧
     attr s' self "_dxid" = None ∧
     DXJob.get_id self s' = (Raise (Exn "AttributeError" "_dxid"), s')).
Proof.
  intros Hbase.
  assert (∀ s0 self, attr s0 self "_dxid" = None →
     DXJob.get_id self s0 = (Raise (Exn "AttributeError" "_dxid"), s0)) as Hraise.
  { intros s0 self Hattr. unfold DXJob.get_id, getattr.
    rewrite Hattr, Hbase. reflexivity. }
  split; [apply Hraise|].
  set (a := fresh (dom (heap s))).
  set (s0 := mkState (<[a := ∅]> (heap s)) (_test_harness_jobs s) (environ s)
               (ext s) (trace s)).
  assert (attr (store a "_test_harness_result" VNone s0) a "_dxid" = None) as Hattr.
  { rewrite attr_store, decide_False by (intros [_ ?]; done).
    unfold attr, obj_dict, s0. cbn [heap]. by rewrite lookup_insert_eq. }
  exists a, (store a "_test_harness_result" VNone s0).
  split; [reflexivity|]. split; [exact Hattr|]. by apply Hraise.
Qed.

(** C10: [set_id], [get_id], [describe], [wait_on_done] after any
    number of passes, [terminate], and [new] in a job of the platform
    leave the registry of local jobs as it is; so when [new], in a
    program that is not a job of the platform, has registered the handle
    under its synthetic identity and [set_id] then gives the handle
    another identity, the registry still has the handle under the
    synthetic identity, which is no longer the identity of the handle. *)
Theorem registry_frame self kw s :
  (∀ dxid, _test_harness_jobs (DXJob.set_id self dxid s).2 = _test_harness_jobs s) ∧
  _test_harness_jobs (DXJob.get_id self s).2 = _test_harness_jobs s ∧
  (∀ io, _test_harness_jobs (DXJob.describe self io kw s).2 = _test_harness_jobs s) ∧
  (∀ n interval timeout,
     _test_harness_jobs
       (config_state (DXJob.wait_steps n self interval timeout kw (DXJob.Running 0 s))) =
     _test_harness_jobs s) ∧
  (∀ fuel interval timeout r s',
     DXJob.wait_on_done fuel self interval timeout kw s = Some (r, s') →
     _test_harness_jobs s' = _test_harness_jobs s) ∧
  _test_harness_jobs (DXJob.terminate self kw s).2 = _test_harness_jobs s ∧
  (∀ fn_input fn_name, is_Some (environ s !! "DX_JOB_ID") →
     _test_harness_jobs (DXJob.new self fn_input fn_name kw s).2 =
     _test_harness_jobs s) ∧
  (∀ fn_input fn_name result s1 dxid,
     detached s →
     dxpy_run_call fn_name fn_input s = (Ret result, s1) →
     let key := job_id (S (size (_test_harness_jobs s1))) in
     dxid ≠ key →
     ∃ s2 s3,
       DXJob.new self fn_input fn_name kw s = (Ret (), s2) ∧
       DXJob.get_id self s2 = (Ret key, s2) ∧
       _test_harness_jobs s2 !! key = Some self ∧
       DXJob.set_id self dxid s2 = (Ret (), s3) ∧
       _test_harness_jobs s3 !! key = Some self ∧
       DXJob.get_id self s3 = (Ret dxid, s3) ∧
       (DXJob.get_id self s3).1 ≠ Ret key).
Proof.
  assert (∀ n interval timeout,
     _test_harness_jobs
       (config_state (DXJob.wait_steps n self interval timeout kw (DXJob.Running 0 s))) =
     _test_harness_jobs s) as Hwait.
  { intros n interval timeout.
    destruct (wait_steps_same_store n self interval timeout kw 0 s)
      as (s' & (_ & Hjobs & _) & [[r ->]|[e ->]]); exact Hjobs. }
  split; [done|]. split.
  { unfold DXJob.get_id, getattr. by repeat case_match. }
  split.
  { intros io. destruct (DXJob.describe self io kw s) as [r s1] eqn:Hd.
    by apply describe_effect in Hd as [(_ & Hjobs & _) _]. }
  split; [exact Hwait|]. split.
  { intros fuel interval timeout r s' Hret. unfold DXJob.wait_on_done in Hret.
    specialize (Hwait fuel interval timeout).
    destruct (DXJob.wait_steps _ _ _ _ _ _) as [|r' s'']; simplify_eq/=. done. }
  split.
  { py_unfold. repeat case_match; simplify_eq/=; done. }
  split.
  { intros fn_input fn_name Hm.
    rewrite (new_remote_eq self fn_input fn_name kw s Hm).
    repeat case_match; done. }
  intros fn_input fn_name result s1 dxid Hm Hrun key Hne.
  exists (registered self result s1), (store self "_dxid" dxid (registered self result s1)).
  split; [by apply new_detached_returns|].
  split; [apply get_id_registered|].
  split; [apply lookup_insert_eq|].
  split; [done|].
  split; [apply lookup_insert_eq|].
  assert (DXJob.get_id self (store self "_dxid" dxid (registered self result s1)) =
          (Ret dxid, store self "_dxid" dxid (registered self result s1))) as Hid
    by apply getattr_instance, attr_store_eq.
  split; [exact Hid|]. rewrite Hid. simpl. congruence.
Qed.
End properties.

(** ** The properties on the two concrete programs *)

Section checks.
Import Harness.

Lemma wait_on_done_done_first_witness :
  DXJob.describe 1%positive false ∅ (remote [reports "done"]) =
    (Ret (VDict [("state", VStr "done")]),
     (DXJob.describe 1%positive false ∅ (remote [reports "done"])).2) ∧
  DXJob.wait_on_done 1 1%positive 2 0 ∅ (remote [reports "done"]) =
    Some (Ret (), (DXJob.describe 1%positive false ∅ (remote [reports "done"])).2).
Proof.
  assert (DXJob.describe 1%positive false ∅ (remote [reports "done"]) =
    (Ret (VDict [("state", VStr "done")]),
     (DXJob.describe 1%positive false ∅ (remote [reports "done"])).2)) as Hd
    by (vm_compute; reflexivity).
  split; [exact Hd|].
  exact (proj2 (wait_on_done_done_first (Ext := world) 1%positive 2 ∅ _ _ _ eq_refl Hd eq_refl) 0%nat).
Defined.

Lemma wait_on_done_failed_terminated_witness :
  DXJob.wait_steps 1 1%positive 2 5 ∅
      (DXJob.Running 0 (remote [reports "running"; reports "failed"])) =
    DXJob.Running 2
      (config_state (DXJob.wait_steps 1 1%positive 2 5 ∅
         (DXJob.Running 0 (remote [reports "running"; reports "failed"])))) ∧
  DXJob.wait_on_done 2 1%positive 2 5 ∅ (remote [reports "running"; reports "failed"]) =
    Some (Raise DXJob.job_failed,
          (DXJob.describe 1%positive false ∅
             (config_state (DXJob.wait_steps 1 1%positive 2 5 ∅
                (DXJob.Running 0 (remote [reports "running"; reports "failed"]))))).2).
Proof.
  assert (DXJob.wait_steps 1 1%positive 2 5 ∅
      (DXJob.Running 0 (remote [reports "running"; reports "failed"])) =
    DXJob.Running 2
      (config_state (DXJob.wait_steps 1 1%positive 2 5 ∅
         (DXJob.Running 0 (remote [reports "running"; reports "failed"]))))) as Hn
    by (vm_compute; reflexivity).
  split; [exact Hn|].
  refine (proj1 (wait_on_done_failed_terminated (Ext := world) 1 1%positive 2 5 ∅ _ 2 _
                   (VDict [("state", VStr "failed")]) _ eq_refl Hn _) eq_refl 2%nat _).
  - vm_compute; reflexivity.
  - lia.
Defined.

Lemma wait_on_done_timeout_boundary_witness :
  ∃ s3 s4,
    DXJob.wait_steps 3 1%positive 2 5 ∅ (DXJob.Running 0 Busy.bound) =
      DXJob.Running 6 s3 ∧
    DXJob.wait_step 1%positive 2 5 ∅ (DXJob.Running 6 s3) =
      DXJob.Finished (Raise DXJob.wait_timeout) s4 ∧
    DXJob.wait_on_done 3 1%positive 2 5 ∅ Busy.bound = None ∧
    (∀ fuel, (4 ≤ fuel)%nat →
       DXJob.wait_on_done fuel 1%positive 2 5 ∅ Busy.bound =
       Some (Raise DXJob.wait_timeout, s4)) ∧
    trace s4 = trace Busy.bound ++
      [describe_event (VStr "job-XYZ") ∅; EvSleep 2;
       describe_event (VStr "job-XYZ") ∅; EvSleep 2;
       describe_event (VStr "job-XYZ") ∅; EvSleep 2;
       describe_event (VStr "job-XYZ") ∅].
Proof.
  apply (wait_on_done_timeout_boundary 1%positive ∅ Busy.bound (VStr "job-XYZ")).
  - reflexivity.
  - vm_compute; reflexivity.
  - intros []. eexists _, (), (VStr "running"). repeat split; reflexivity.
Defined.

Lemma wait_on_done_termination_witness :
  (∃ n r s',
     Z.of_nat n ≤ 5 / 2 + 2 ∧
     (∀ fuel, (n ≤ fuel)%nat →
        DXJob.wait_on_done fuel 1%positive 2 5 ∅ Busy.bound = Some (r, s')) ∧
     Z.of_nat (count is_describe (trace s')) ≤
       Z.of_nat (count is_describe (trace Busy.bound)) + 5 / 2 + 2) ∧
  (∀ fuel, DXJob.wait_on_done fuel 1%positive 0 5 ∅ Busy.bound = None).
Proof.
  split.
  - apply (proj1 (wait_on_done_termination 1%positive ∅ Busy.bound) 2 5); lia.
  - apply (proj2 (wait_on_done_termination 1%positive ∅ Busy.bound) 5 (VStr "job-XYZ")).
    + lia.
    + reflexivity.
    + vm_compute; reflexivity.
    + intros []. eexists _, (), (VStr "running"). repeat split; reflexivity.
Defined.

Lemma detached_identities_witness :
  ∃ s',
    create_all
      [Call 1%positive (VDict [("a", VInt 1); ("b", VInt 2)]) (VStr "add") ∅;
       Call 2%positive (VDict [("a", VInt 2); ("b", VInt 3)]) (VStr "add") ∅]
      (initial ∅ []) =
      (Ret [VStr "job-1"; VStr "job-2"], s') ∧
    NoDup [VStr "job-1"; VStr "job-2"] ∧
    dom (_test_harness_jobs s') = {[ VStr "job-1"; VStr "job-2" ]} ∧
    size (_test_harness_jobs s') = 2%nat.
Proof.
  destruct (detached_identities
    [Call 1%positive (VDict [("a", VInt 1); ("b", VInt 2)]) (VStr "add") ∅;
     Call 2%positive (VDict [("a", VInt 2); ("b", VInt 3)]) (VStr "add") ∅]
    (initial ∅ [])) as (s' & Hall & Hnd & Hdom & Hsize).
  - reflexivity.
  - reflexivity.
  - repeat constructor; intros s; eexists _, s; repeat split; reflexivity.
  - exists s'. split; [exact Hall|]. split; [exact Hnd|]. split; [|exact Hsize].
    rewrite Hdom. vm_compute. reflexivity.
Defined.
Lemma new_remote_witness :
  is_Some (environ (initial in_job [Ret (VDict [("id", VStr "job-XYZ")])]) !! "DX_JOB_ID") ∧
  DXJob.new 1%positive (VDict [("a", VInt 1)]) (VStr "add") ∅
      (initial in_job [Ret (VDict [("id", VStr "job-XYZ")])]) =
    (Ret (),
     store 1%positive "_dxid" (VStr "job-XYZ")
       (requested (VDict [("input", VDict [("a", VInt 1)]); ("function", VStr "add")])
          ∅ [] (initial in_job [Ret (VDict [("id", VStr "job-XYZ")])]))) ∧
  trace (DXJob.new 1%positive (VDict [("a", VInt 1)]) (VStr "add") ∅
           (initial in_job [Ret (VDict [("id", VStr "job-XYZ")])])).2 =
    [EvJobNew (VDict [("input", VDict [("a", VInt 1)]); ("function", VStr "add")]) ∅].
Proof.
  assert (is_Some (environ (initial in_job [Ret (VDict [("id", VStr "job-XYZ")])])
                     !! "DX_JOB_ID")) as Hm by (by eexists).
  pose proof (new_remote 1%positive (VDict [("a", VInt 1)]) (VStr "add") ∅
                (initial in_job [Ret (VDict [("id", VStr "job-XYZ")])]) Hm) as H.
  cbn zeta in H. destruct H as (_ & _ & Htrace & _ & _ & _ & Hret).
  split; [exact Hm|]. split; [|exact Htrace].
  exact (proj1 (Hret (VDict [("id", VStr "job-XYZ")]) (VStr "job-XYZ") eq_refl eq_refl)).
Defined.

Lemma new_detached_failure_witness :
  detached (initial ∅ []) ∧
  DXJob.new 1%positive VNone (VStr "crash") ∅ (initial ∅ []) =
    (Raise (Exn "RuntimeError" "crash"),
     mkState ∅ ∅ ∅ ([] : world) [EvRun (VStr "crash") VNone]) ∧
  attr (mkState ∅ ∅ ∅ ([] : world) [EvRun (VStr "crash") VNone]) 1%positive "_dxid" =
    attr (initial ∅ []) 1%positive "_dxid".
Proof.
  destruct (new_detached_failure 1%positive VNone (VStr "crash") ∅ (initial ∅ [])
              (Exn "RuntimeError" "crash") (mkState ∅ ∅ ∅ ([] : world) [EvRun (VStr "crash") VNone]))
    as (s' & Hnew & -> & Hid & _); try reflexivity.
  split; [reflexivity|]. split; [exact Hnew|exact Hid].
Defined.

Lemma get_id_unbound_witness :
  DXObject_attrs (Ext := world) !! "_dxid" = None ∧
  attr (DXJob.construct VNone (initial ∅ [])).2 1%positive "_dxid" = None ∧
  DXJob.get_id 1%positive (DXJob.construct VNone (initial ∅ [])).2 =
    (Raise (Exn "AttributeError" "_dxid"), (DXJob.construct VNone (initial ∅ [])).2).
Proof.
  assert (attr (DXJob.construct VNone (initial ∅ [])).2 1%positive "_dxid" = None) as Hattr
    by (vm_compute; reflexivity).
  split; [reflexivity|]. split; [exact Hattr|].
  exact (proj1 (get_id_unbound (DXJob.construct VNone (initial ∅ [])).2 eq_refl)
           1%positive Hattr).
Defined.

Lemma registry_frame_witness :
  ∃ s2 s3,
    DXJob.new 1%positive (VDict [("a", VInt 1); ("b", VInt 2)]) (VStr "add") ∅
      (initial ∅ []) = (Ret (), s2) ∧
    DXJob.get_id 1%positive s2 = (Ret (VStr "job-1"), s2) ∧
    _test_harness_jobs s2 !! VStr "job-1" = Some 1%positive ∧
    DXJob.set_id 1%positive (VStr "job-abc") s2 = (Ret (), s3) ∧
    _test_harness_jobs s3 !! VStr "job-1" = Some 1%positive ∧
    DXJob.get_id 1%positive s3 = (Ret (VStr "job-abc"), s3) ∧
    (DXJob.get_id 1%positive s3).1 ≠ Ret (VStr "job-1").
Proof.
  pose proof (proj2 (proj2 (proj2 (proj2 (proj2 (proj2 (proj2
    (registry_frame 1%positive ∅ (initial ∅ []))))))))
    (VDict [("a", VInt 1); ("b", VInt 2)]) (VStr "add") (VInt 3)
    (mkState ∅ ∅ ∅ ([] : world) [EvRun (VStr "add") (VDict [("a", VInt 1); ("b", VInt 2)])])
    (VStr "job-abc") eq_refl eq_refl) as H.
  cbn zeta in H.
  change (job_id _) with (VStr "job-1") in H.
  apply H. discriminate.
Defined.

(** C6, read as discarding the local result, fails: a handle created by [new_dxjob] in a
    program that is not a job of the platform, with the local result 3,
    still has this local result after [set_id] has given it the
    identity [job-abc]. *)
Lemma set_id_keeps_local_result :
  ∃ s',
    (dxjob ← new_dxjob (VDict [("a", VInt 1); ("b", VInt 2)]) (VStr "add") ∅;
     DXJob.set_id dxjob (VStr "job-abc");;
     mret dxjob) (initial ∅ []) = (Ret 1%positive, s') ∧
    DXJob.get_id 1%positive s' = (Ret (VStr "job-abc"), s') ∧
    attr s' 1%positive "_test_harness_result" = Some (VInt 3) ∧
    attr s' 1%positive "_test_harness_result" ≠ None ∧
    attr s' 1%positive "_test_harness_result" ≠ Some VNone.
Proof.
  eexists. split; [vm_compute; reflexivity|].
  split; [vm_compute; reflexivity|].
  assert (∀ o : option pyval, o = Some (VInt 3) → o ≠ None ∧ o ≠ Some VNone) as Hne
    by (intros o ->; split; discriminate).
  split; [vm_compute; reflexivity|]. apply Hne. vm_compute; reflexivity.
Qed.
End checks.


(** ** Further properties of the module *)

Section coverage.
Context {Ext : Type} `{!Collaborators Ext}.
Implicit Types (s : State Ext) (self : addr) (kw : kwargs).

(** *** The constructor *)

Lemma construct_eq dxid s :
  let a := fresh (dom (heap s)) in
  let s0 := store a "_test_harness_result" VNone
              (mkState (<[a := ∅]> (heap s)) (_test_harness_jobs s) (environ s)
                 (ext s) (trace s)) in
  DXJob.construct dxid s =
    (Ret a, if py_is_none dxid then s0 else store a "_dxid" dxid s0).
Proof.
  intros a s0. unfold DXJob.construct, DXJob.__init__, alloc, setattr, DXJob.set_id.
  unfold mbind, M_bind, bind, ret. fold a. fold s0.
  by destruct (py_is_none dxid).
Qed.

Lemma attr_alloc s obj name :
  obj ≠ fresh (dom (heap s)) →
  attr (mkState (<[fresh (dom (heap s)) := ∅]> (heap s)) (_test_harness_jobs s)
          (environ s) (ext s) (trace s)) obj name = attr s obj name.
Proof.
  intros Hne. unfold attr, obj_dict. cbn [heap]. by rewrite lookup_insert_ne.
Qed.

(** X1: [DXJob(dxid)] makes a new object, one that the store did not hold,
    whose local result is [None]; the object has the identity [dxid] when
    one is given and no attribute [_dxid] otherwise; the attributes of
    the other objects, the registry of local jobs, the environment, the
    external world and the trace are what they were: no collaborator is
    called. *)
Theorem construct_fresh_handle dxid s :
  ∃ self s',
    DXJob.construct dxid s = (Ret self, s') ∧
    (self ∉ dom (heap s)) ∧
    attr s' self "_test_harness_result" = Some VNone ∧
    attr s' self "_dxid" = (if py_is_none dxid then None else Some dxid) ∧
    (∀ obj name, obj ≠ self → attr s' obj name = attr s obj name) ∧
    _test_harness_jobs s' = _test_harness_jobs s ∧ environ s' = environ s ∧
    ext s' = ext s ∧ trace s' = trace s.
Proof.
  pose proof (construct_eq dxid s) as Heq. cbn zeta in Heq.
  set (a := fresh (dom (heap s))) in *.
  eexists a, _. split; [exact Heq|].
  split; [apply is_fresh|].
  assert (∀ name, attr (mkState (<[a := ∅]> (heap s)) (_test_harness_jobs s)
                          (environ s) (ext s) (trace s)) a name = None) as Hnew.
  { intros name. unfold attr, obj_dict. cbn [heap]. by rewrite lookup_insert_eq. }
  destruct (py_is_none dxid); repeat split; try done.
  - apply attr_store_eq.
  - by rewrite attr_store, decide_False by (intros [_ ?]; done).
  - intros obj name Hobj.
    rewrite attr_store, decide_False by (intros [? _]; done).
    by apply attr_alloc.
  - rewrite attr_store, decide_False by (intros [_ ?]; done). apply attr_store_eq.
  - apply attr_store_eq.
  - intros obj name Hobj.
    rewrite !attr_store, !decide_False by (intros [? _]; done).
    by apply attr_alloc.
Qed.
(** *** [new_dxjob] *)

(** X2: In a program that is not a job of the platform, [new_dxjob], given
    options that do not hold the key [self], runs the
    function after it has made the handle; when the function returns
    [result], [new_dxjob] returns a handle that the store did not hold
    before, whose identity is the synthetic identity numbered by the size
    of the registry plus one, which holds [result] as its local result
    and which the registry has under that identity; the attributes of
    the other objects are as the function left them. *)
Theorem new_dxjob_detached fn_input fn_name kw s result s1 :
  kw !! "self" = None →
  detached s →
  dxpy_run_call fn_name fn_input (DXJob.construct VNone s).2 = (Ret result, s1) →
  ∃ dxjob s',
    new_dxjob fn_input fn_name kw s = (Ret dxjob, s') ∧
    (dxjob ∉ dom (heap s)) ∧
    DXJob.get_id dxjob s' = (Ret (job_id (S (size (_test_harness_jobs s1)))), s') ∧
    attr s' dxjob "_test_harness_result" = Some result ∧
    _test_harness_jobs s' !! job_id (S (size (_test_harness_jobs s1))) = Some dxjob ∧
    (∀ obj name, obj ≠ dxjob → attr s' obj name = attr s1 obj name).
Proof.
  intros Hkw Hm Hrun.
  pose proof (construct_eq VNone s) as Hc. cbn zeta in Hc. cbn [py_is_none] in Hc.
  rewrite Hc in Hrun. cbn [snd] in Hrun.
  set (a := fresh (dom (heap s))) in *.
  exists a, (registered a result s1).
  split.
  { unfold new_dxjob, DXJob.new_call. rewrite Hkw.
    unfold mbind at 1, M_bind at 1, bind at 1. rewrite Hc.
    unfold mbind at 1, M_bind at 1, bind at 1.
    by rewrite (new_detached_returns a fn_input fn_name kw _ result s1). }
  split; [apply is_fresh|].
  split; [apply get_id_registered|].
  split; [apply attr_store_eq|].
  split; [apply lookup_insert_eq|].
  intros obj name Hobj. unfold registered.
  rewrite attr_store, decide_False by (intros [? _]; done).
  change (attr (register ?k ?o ?s0) obj name) with (attr s0 obj name).
  by rewrite attr_store, decide_False by (intros [? _]; done).
Qed.

(** X3: When the function run in place raises, [new_dxjob], given options
    that do not hold the key [self], raises the same
    exception, in the state the function left: the caller gets no handle
    and nothing is registered after the function. *)
Theorem new_dxjob_detached_raises fn_input fn_name kw s e s1 :
  kw !! "self" = None →
  detached s →
  dxpy_run_call fn_name fn_input (DXJob.construct VNone s).2 = (Raise e, s1) →
  new_dxjob fn_input fn_name kw s = (Raise e, s1).
Proof.
  intros Hkw Hm Hrun.
  pose proof (construct_eq VNone s) as Hc. cbn zeta in Hc. cbn [py_is_none] in Hc.
  rewrite Hc in Hrun. cbn [snd] in Hrun.
  unfold new_dxjob, DXJob.new_call. rewrite Hkw.
  unfold mbind at 1, M_bind at 1, bind at 1. rewrite Hc.
  unfold mbind at 1, M_bind at 1, bind at 1.
  by rewrite (new_detached_raises _ fn_input fn_name kw _ e s1).
Qed.

(** X4: In a job of the platform, [new_dxjob], given options that do not
    hold the key [self], returns a new handle whose
    identity is the [id] field of the answer of the service and whose
    local result is [None]; it sends the one request and leaves the
    registry of local jobs alone.  When the service raises, so does
    [new_dxjob]. *)
Theorem new_dxjob_remote fn_input fn_name kw s :
  kw !! "self" = None →
  is_Some (environ s !! "DX_JOB_ID") →
  let req_input := VDict [("input", fn_input); ("function", fn_name)] in
  (∀ resp x dxid,
     api_jobNew req_input kw (ext s) = (Ret resp, x) →
     py_getitem resp "id" = Ret dxid →
     ∃ dxjob s',
       new_dxjob fn_input fn_name kw s = (Ret dxjob, s') ∧
       (dxjob ∉ dom (heap s)) ∧
       DXJob.get_id dxjob s' = (Ret dxid, s') ∧
       attr s' dxjob "_test_harness_result" = Some VNone ∧
       _test_harness_jobs s' = _test_harness_jobs s ∧
       trace s' = trace s ++ [EvJobNew req_input kw] ∧ ext s' = x) ∧
  (∀ e x,
     api_jobNew req_input kw (ext s) = (Raise e, x) →
     (new_dxjob fn_input fn_name kw s).1 = Raise e).
Proof.
  intros Hkw Hm req_input.
  pose proof (construct_eq VNone s) as Hc. cbn zeta in Hc. cbn [py_is_none] in Hc.
  set (a := fresh (dom (heap s))) in *.
  match type of Hc with _ = (_, ?s1) => set (s0 := s1) in * end.
  assert (is_Some (environ s0 !! "DX_JOB_ID")) as Hm0 by exact Hm.
  pose proof (new_remote_eq a fn_input fn_name kw s0 Hm0) as Hnew.
  cbn zeta in Hnew. fold req_input in Hnew.
  change (ext s0) with (ext s) in Hnew.
  split.
  - intros resp x dxid Hapi Hid. rewrite Hapi in Hnew. cbn [fst snd] in Hnew.
    rewrite Hid in Hnew.
    eexists a, _. split.
    { unfold new_dxjob, DXJob.new_call. rewrite Hkw.
      unfold mbind at 1, M_bind at 1, bind at 1. rewrite Hc.
      unfold mbind at 1, M_bind at 1, bind at 1. rewrite Hnew. reflexivity. }
    split; [apply is_fresh|].
    split; [apply getattr_instance, attr_store_eq|].
    split; [|done].
    rewrite attr_store, decide_False by (intros [_ ?]; done).
    change (attr (requested ?r ?k ?y s0) a "_test_harness_result")
      with (attr s0 a "_test_harness_result").
    apply attr_store_eq.
  - intros e x Hapi. rewrite Hapi in Hnew. cbn [fst snd] in Hnew.
    unfold new_dxjob, DXJob.new_call. rewrite Hkw.
    unfold mbind at 1, M_bind at 1, bind at 1. rewrite Hc.
    unfold mbind at 1, M_bind at 1, bind at 1. by rewrite Hnew.
Qed.
(** X19: With options that hold the key [self], [new_dxjob] makes the
    handle and then raises [TypeError] at its call of [new], which gets
    [self] twice: the state is the one the constructor left, so the
    function is not run, no request is sent and nothing is registered,
    and the caller gets no handle. *)
Theorem new_dxjob_self_option fn_input fn_name kw s :
  is_Some (kw !! "self") →
  new_dxjob fn_input fn_name kw s =
    (Raise DXJob.self_given_twice, (DXJob.construct VNone s).2) ∧
  _test_harness_jobs (new_dxjob fn_input fn_name kw s).2 = _test_harness_jobs s ∧
  ext (new_dxjob fn_input fn_name kw s).2 = ext s ∧
  trace (new_dxjob fn_input fn_name kw s).2 = trace s.
Proof.
  intros [v Hkw].
  pose proof (construct_eq VNone s) as Hc. cbn zeta in Hc. cbn [py_is_none] in Hc.
  assert (new_dxjob fn_input fn_name kw s =
          (Raise DXJob.self_given_twice, (DXJob.construct VNone s).2)) as Heq.
  { unfold new_dxjob, DXJob.new_call. rewrite Hkw.
    unfold mbind at 1, M_bind at 1, bind at 1. by rewrite Hc. }
  split; [exact Heq|]. rewrite Heq, Hc. done.
Qed.

(** *** Handles without an identity *)

(** X5: On a handle without the attribute [_dxid], with a base class that
    does not define it either, and with options that do not hold the
    key [io], [describe], [terminate] and [wait_on_done] raise
    [AttributeError] before any call to the service: the state, and so
    the trace, is what it was. *)
Theorem unbound_handle_calls self kw s :
  kw !! "io" = None →
  DXObject_attrs !! "_dxid" = None →
  attr s self "_dxid" = None →
  (∀ io, DXJob.describe self io kw s = (Raise (Exn "AttributeError" "_dxid"), s)) ∧
  DXJob.terminate self kw s = (Raise (Exn "AttributeError" "_dxid"), s) ∧
  (∀ fuel interval timeout,
     DXJob.wait_on_done (S fuel) self interval timeout kw s =
     Some (Raise (Exn "AttributeError" "_dxid"), s)).
Proof.
  intros Hkw Hbase Hattr.
  assert (getattr self "_dxid" s = (Raise (Exn "AttributeError" "_dxid"), s)) as Hget.
  { unfold getattr. by rewrite Hattr, Hbase. }
  assert (∀ io, DXJob.describe self io kw s = (Raise (Exn "AttributeError" "_dxid"), s))
    as Hdesc.
  { intros io. unfold DXJob.describe, mbind, M_bind, bind. by rewrite Hget. }
  split; [exact Hdesc|]. split.
  { unfold DXJob.terminate, mbind, M_bind, bind. by rewrite Hget. }
  intros fuel interval timeout. apply (wait_on_done_fuel 1); [|lia].
  cbn [DXJob.wait_steps]. by rewrite wait_step_state, Hdesc by done.
Qed.

(** *** [describe], [_get_state] and [terminate] *)

Lemma py_getitem_missing items key :
  (∀ v, (key, v) ∉ items) →
  py_getitem (VDict items) key = Raise (Exn "KeyError" key).
Proof.
  intros Hmiss. unfold py_getitem.
  destruct (list_find _ items) as [[i [k v]]|] eqn:Hfind; [|done].
  apply list_find_Some in Hfind as (Hi%list_elem_of_lookup_2 & Hk & _).
  simpl in Hk. subst k. by destruct (Hmiss v).
Qed.

(** X6: [_get_state], given options that do not hold the key [io], asks
    for the description without input and output and returns its [state]
    field.  When the description the service gives has no such field,
    [_get_state] raises [KeyError], and [wait_on_done] raises it in its
    first pass, after the one describe call and without sleeping. *)
Theorem get_state_missing_field self kw s dxid items x :
  kw !! "io" = None →
  attr s self "_dxid" = Some dxid →
  api_jobDescribe dxid (VDict [("io", VBool false)]) kw (ext s) = (Ret (VDict items), x) →
  (∀ v, ("state"%string, v) ∉ items) →
  let s1 := mkState (heap s) (_test_harness_jobs s) (environ s) x
              (trace s ++ [describe_event dxid kw]) in
  DXJob._get_state self kw s = (Raise (Exn "KeyError" "state"), s1) ∧
  (∀ fuel interval timeout,
     DXJob.wait_on_done (S fuel) self interval timeout kw s =
     Some (Raise (Exn "KeyError" "state"), s1)).
Proof.
  intros Hkw Hb Hapi Hmiss s1.
  assert (DXJob.describe self false kw s = (Ret (VDict items), s1)) as Hd.
  { by rewrite (describe_bound _ _ _ _ dxid), Hapi. }
  pose proof (py_getitem_missing items "state" Hmiss) as Hget.
  split.
  - unfold DXJob._get_state, DXJob.describe_call, mbind, M_bind, bind, lift.
    by rewrite Hkw, Hd, Hget.
  - intros fuel interval timeout. apply (wait_on_done_fuel 1); [|lia].
    cbn [DXJob.wait_steps]. by rewrite wait_step_state, Hd, Hget by done.
Qed.

(** X7: [terminate] sends one request to terminate the job the handle is
    bound to, with the options it was given; whatever the service
    answers, [terminate] returns [None]; an exception of the service
    comes out as it is; the objects, the registry of local jobs and the
    environment are unchanged. *)
Theorem terminate_effect self kw s dxid :
  attr s self "_dxid" = Some dxid →
  let s1 := mkState (heap s) (_test_harness_jobs s) (environ s)
              (api_jobTerminate dxid kw (ext s)).2
              (trace s ++ [EvJobTerminate dxid kw]) in
  DXJob.terminate self kw s =
    (match (api_jobTerminate dxid kw (ext s)).1 with
     | Ret _ => Ret ()
     | Raise e => Raise e
     end, s1).
Proof.
  intros Hb s1. subst s1. py_unfold. rewrite Hb. simpl.
  by destruct (api_jobTerminate dxid kw (ext s)) as [[?|?] ?].
Qed.
(** *** The wait loop *)

Lemma count_snoc2 p (t : list event) ev1 ev2 :
  count p ((t ++ [ev1]) ++ [ev2]) =
  (count p t + (if p ev1 then 1 else 0) + (if p ev2 then 1 else 0))%nat.
Proof. by rewrite !count_snoc. Qed.

Lemma describe_no_sleep self io kw s r s1 :
  DXJob.describe self io kw s = (r, s1) →
  count is_sleep (trace s1) = count is_sleep (trace s).
Proof.
  py_unfold. intros Hd.
  repeat case_match; simplify_eq/=; try done; rewrite count_snoc; simpl; lia.
Qed.

(** A pass that comes back to the head of the loop has made one describe
    call and one sleep of [interval] seconds, which is not negative, and
    has added [interval] to an [elapsed] within the timeout. *)
Lemma wait_step_running self interval timeout kw elapsed s elapsed' s' :
  DXJob.wait_step self interval timeout kw (DXJob.Running elapsed s) =
    DXJob.Running elapsed' s' →
  elapsed' = elapsed + interval ∧ 0 ≤ elapsed < timeout ∧ 0 ≤ interval ∧
  same_store s s' ∧
  count is_describe (trace s') = S (count is_describe (trace s)) ∧
  count is_sleep (trace s') = S (count is_sleep (trace s)) ∧
  (∃ dxid, trace s' = trace s ++ [describe_event dxid kw; EvSleep interval]).
Proof.
  destruct (kw !! "io") as [v|] eqn:Hkw; [by rewrite wait_step_io_twice|].
  rewrite wait_step_state by done.
  destruct (DXJob.describe self false kw s) as [[desc|e] s1] eqn:Hd; [|done].
  destruct (describe_effect _ _ _ _ _ _ Hd) as [Hs _].
  destruct (describe_returns _ _ _ _ _ _ Hd) as (dxid & Ht & _).
  destruct (py_getitem desc "state") as [state|e]; [|done].
  destruct (py_eq_str state "done"); [done|].
  destruct (py_eq_str state "failed"); [done|].
  destruct (py_eq_str state "terminated"); [done|].
  destruct ((timeout <=? elapsed) || (elapsed <? 0)) eqn:Hto; [done|].
  destruct (interval <? 0) eqn:Hi; [done|].
  apply orb_false_iff in Hto as [? ?].
  intros [= <- <-]. cbn [trace]. rewrite Ht.
  split; [done|]. split; [lia|]. split; [lia|]. split; [exact Hs|].
  rewrite !count_snoc2. cbn [is_describe is_sleep].
  split; [lia|]. split; [lia|].
  exists dxid. by rewrite <-app_assoc.
Qed.

Lemma wait_steps_running k self interval timeout kw e0 s0 e sk :
  DXJob.wait_steps k self interval timeout kw (DXJob.Running e0 s0) =
    DXJob.Running e sk →
  e = e0 + Z.of_nat k * interval ∧
  count is_describe (trace sk) = (count is_describe (trace s0) + k)%nat ∧
  count is_sleep (trace sk) = (count is_sleep (trace s0) + k)%nat ∧
  same_store s0 sk ∧
  (k ≠ 0%nat → 0 ≤ interval ∧ e0 + (Z.of_nat k - 1) * interval < timeout).
Proof.
  revert e0 s0 e sk. induction k as [|k IH]; intros e0 s0 e sk Hrun.
  - simpl in Hrun. injection Hrun as <- <-.
    split; [lia|]. split; [lia|]. split; [lia|]. split; [apply same_store_refl|done].
  - rewrite wait_steps_S in Hrun.
    destruct (DXJob.wait_step self interval timeout kw (DXJob.Running e0 s0))
      as [e1 s1|r s1] eqn:Hstep; [|by rewrite wait_steps_finished in Hrun].
    apply wait_step_running in Hstep as (-> & He0 & Hi & Hs & Hd & Hsl & _).
    apply IH in Hrun as (-> & Hd' & Hsl' & Hs' & Hk).
    split; [lia|]. split; [lia|]. split; [lia|].
    split; [by eapply same_store_trans|].
    intros _. split; [done|].
    destruct (decide (k = 0%nat)) as [->|Hk0]; [lia|].
    destruct (Hk Hk0). lia.
Qed.

(** X8: The invariant of the loop: when [k] passes have been made and the
    loop is at its head, [elapsed] is [k] times [interval], exactly [k]
    describe calls and [k] sleeps have been made, and the objects, the
    registry and the environment are unchanged. *)
Theorem wait_loop_invariant k self interval timeout kw s elapsed sk :
  DXJob.wait_steps k self interval timeout kw (DXJob.Running 0 s) =
    DXJob.Running elapsed sk →
  elapsed = Z.of_nat k * interval ∧
  count is_describe (trace sk) = (count is_describe (trace s) + k)%nat ∧
  count is_sleep (trace sk) = (count is_sleep (trace s) + k)%nat ∧
  same_store s sk ∧
  (k ≠ 0%nat → 0 ≤ interval ∧ (Z.of_nat k - 1) * interval < timeout).
Proof.
  intros Hrun. apply wait_steps_running in Hrun as (-> & ? & ? & ? & Hk).
  split; [lia|]. split; [done|]. split; [done|]. split; [done|].
  intros Hk0. destruct (Hk Hk0). split; [done|lia].
Qed.

(** X9: With options that do not hold the key [io]: when the loop is at
    its head after [k] passes and the next describe call reports [done], [wait_on_done] returns normally, after [k + 1]
    describe calls and [k] sleeps, that is after [k] times [interval]
    seconds of sleep. *)
Theorem wait_on_done_returns_after k self interval timeout kw s elapsed sk desc s1 :
  kw !! "io" = None →
  DXJob.wait_steps k self interval timeout kw (DXJob.Running 0 s) =
    DXJob.Running elapsed sk →
  DXJob.describe self false kw sk = (Ret desc, s1) →
  py_getitem desc "state" = Ret (VStr "done") →
  (∀ fuel, (k < fuel)%nat →
     DXJob.wait_on_done fuel self interval timeout kw s = Some (Ret (), s1)) ∧
  DXJob.wait_on_done k self interval timeout kw s = None ∧
  elapsed = Z.of_nat k * interval ∧
  count is_describe (trace s1) = (count is_describe (trace s) + k + 1)%nat ∧
  count is_sleep (trace s1) = (count is_sleep (trace s) + k)%nat.
Proof.
  intros Hkw Hrun Hd Hst.
  pose proof (wait_steps_running _ _ _ _ _ _ _ _ _ Hrun) as (He & Hcd & Hcs & _ & _).
  destruct (describe_returns _ _ _ _ _ _ Hd) as (dxid & Ht & _).
  split; [|split; [|split; [lia|]]].
  - intros fuel Hfuel. apply (wait_on_done_fuel (k + 1)); [|lia].
    rewrite wait_steps_add, Hrun. cbn [DXJob.wait_steps].
    by rewrite wait_step_state, Hd, Hst by done.
  - unfold DXJob.wait_on_done. by rewrite Hrun.
  - rewrite Ht, !count_snoc. cbn [is_describe is_sleep]. lia.
Qed.

(** X10: With options that do not hold the key [io], an exception of a
    describe call, in whichever pass, comes out of
    [wait_on_done] as it is, with the state that call left: the call is
    not made again. *)
Theorem wait_on_done_describe_raises k self interval timeout kw s elapsed sk e s1 :
  kw !! "io" = None →
  DXJob.wait_steps k self interval timeout kw (DXJob.Running 0 s) =
    DXJob.Running elapsed sk →
  DXJob.describe self false kw sk = (Raise e, s1) →
  (∀ fuel, (k < fuel)%nat →
     DXJob.wait_on_done fuel self interval timeout kw s = Some (Raise e, s1)) ∧
  (count is_describe (trace s1) ≤ count is_describe (trace s) + k + 1)%nat ∧
  count is_sleep (trace s1) = (count is_sleep (trace s) + k)%nat.
Proof.
  intros Hkw Hrun Hd.
  pose proof (wait_steps_running _ _ _ _ _ _ _ _ _ Hrun) as (He & Hcd & Hcs & _ & _).
  split; [|split].
  - intros fuel Hfuel. apply (wait_on_done_fuel (k + 1)); [|lia].
    rewrite wait_steps_add, Hrun. cbn [DXJob.wait_steps].
    by rewrite wait_step_state, Hd by done.
  - destruct (describe_effect _ _ _ _ _ _ Hd) as [_ Hc]. lia.
  - rewrite (describe_no_sleep _ _ _ _ _ _ Hd). lia.
Qed.

(** X18: With options that hold the key [io], [_get_state] raises
    [TypeError] at its call of [describe], which gets [io] twice, and
    [wait_on_done] raises it in its first pass: the state is what it
    was, so no describe call is made, the attribute [_dxid] is not read,
    and there is no sleep, whatever the handle, [interval] and [timeout]
    are. *)
Theorem wait_on_done_io_option self kw s :
  is_Some (kw !! "io") →
  DXJob._get_state self kw s = (Raise DXJob.io_given_twice, s) ∧
  (∀ fuel interval timeout,
     DXJob.wait_on_done (S fuel) self interval timeout kw s =
     Some (Raise DXJob.io_given_twice, s)).
Proof.
  intros Hkw. split.
  - destruct Hkw as [v Hv].
    unfold DXJob._get_state, DXJob.describe_call, mbind, M_bind, bind.
    by rewrite Hv.
  - intros fuel interval timeout. apply (wait_on_done_fuel 1); [|lia].
    cbn [DXJob.wait_steps]. by apply wait_step_io_twice.
Qed.

(** X11: With options that do not hold the key [io], a timeout that is
    zero or negative and a job in progress,
    [wait_on_done] makes one describe call and raises the timeout
    failure without sleeping. *)
Theorem wait_on_done_no_time self interval timeout kw s dxid desc x state :
  kw !! "io" = None →
  timeout ≤ 0 →
  attr s self "_dxid" = Some dxid →
  api_jobDescribe dxid (VDict [("io", VBool false)]) kw (ext s) = (Ret desc, x) →
  py_getitem desc "state" = Ret state → in_progress state →
  ∀ fuel,
    DXJob.wait_on_done (S fuel) self interval timeout kw s =
    Some (Raise DXJob.wait_timeout,
          mkState (heap s) (_test_harness_jobs s) (environ s) x
            (trace s ++ [describe_event dxid kw])).
Proof.
  intros Hkw Ht Hb Hapi Hst Hprog fuel. apply (wait_on_done_fuel 1); [|lia].
  cbn [DXJob.wait_steps].
  apply (wait_step_timeout _ _ _ _ _ _ dxid desc x state); auto with lia.
Qed.
(** *** [new] *)

(** X12: In a job of the platform, when the answer of the service is a
    dictionary without the field [id], [new] raises [KeyError] after the
    request has been sent: the request is in the trace, and the handle,
    like every object, and the registry are what they were. *)
Theorem new_remote_missing_id self fn_input fn_name kw s items x :
  is_Some (environ s !! "DX_JOB_ID") →
  let req_input := VDict [("input", fn_input); ("function", fn_name)] in
  api_jobNew req_input kw (ext s) = (Ret (VDict items), x) →
  (∀ v, ("id"%string, v) ∉ items) →
  DXJob.new self fn_input fn_name kw s =
    (Raise (Exn "KeyError" "id"),
     mkState (heap s) (_test_harness_jobs s) (environ s) x
       (trace s ++ [EvJobNew req_input kw])).
Proof.
  intros Hm req_input Hapi Hmiss.
  pose proof (new_remote_eq self fn_input fn_name kw s Hm) as Hnew.
  cbn zeta in Hnew. fold req_input in Hnew. rewrite Hapi in Hnew. cbn [fst snd] in Hnew.
  by rewrite (py_getitem_missing items "id" Hmiss) in Hnew.
Qed.

(** X13: In a program that is not a job of the platform, [new] does not look
    at its options, and calls nothing but the function to run: the trace
    it leaves is the trace the function left. *)
Theorem new_detached_ignores_kwargs self fn_input fn_name kw kw' s :
  detached s →
  DXJob.new self fn_input fn_name kw s = DXJob.new self fn_input fn_name kw' s ∧
  trace (DXJob.new self fn_input fn_name kw s).2 =
    trace (dxpy_run_call fn_name fn_input s).2.
Proof.
  intros Hm.
  destruct (dxpy_run_call fn_name fn_input s) as [[result|e] s1] eqn:Hrun.
  - by rewrite !(new_detached_returns _ _ _ _ _ result s1).
  - by rewrite !(new_detached_raises _ _ _ _ _ e s1).
Qed.

(** X14: When the keys of the registry are the synthetic identities numbered
    from 1 to its size, a successful [new] in a program that is not a
    job of the platform adds one entry and overwrites none: every entry
    the registry had is still there, the new key was not in it, and the
    keys are numbered again. *)
Theorem new_detached_extends_registry self fn_input fn_name kw s result s1 :
  detached s →
  dxpy_run_call fn_name fn_input s = (Ret result, s1) →
  numbered (_test_harness_jobs s1) →
  ∃ s',
    DXJob.new self fn_input fn_name kw s = (Ret (), s') ∧
    _test_harness_jobs s1 !! job_id (S (size (_test_harness_jobs s1))) = None ∧
    (∀ key obj, _test_harness_jobs s1 !! key = Some obj →
                _test_harness_jobs s' !! key = Some obj) ∧
    size (_test_harness_jobs s') = S (size (_test_harness_jobs s1)) ∧
    numbered (_test_harness_jobs s').
Proof.
  intros Hm Hrun Hnum.
  destruct (numbered_insert _ self Hnum) as (Hfresh & Hsize & Hnum').
  exists (registered self result s1).
  split; [by apply new_detached_returns|]. split; [exact Hfresh|].
  split; [|split; [exact Hsize|exact Hnum']].
  intros key obj Hkey.
  change (_test_harness_jobs (registered self result s1))
    with (<[job_id (S (size (_test_harness_jobs s1))) := self]> (_test_harness_jobs s1)).
  rewrite lookup_insert_ne; [done|]. intros <-. congruence.
Qed.

(** X15: A handle used for two jobs in a program that is not a job of the
    platform: after the second [new] the handle has the second synthetic
    identity and the second result, and the registry has the same handle
    under both identities. *)
Theorem new_detached_twice self fn_input fn_name kw fn_input' fn_name' kw' s
    result s1 result' s2 :
  detached s →
  dxpy_run_call fn_name fn_input s = (Ret result, s1) →
  numbered (_test_harness_jobs s1) →
  environ s1 = environ s →
  dxpy_run_call fn_name' fn_input' (registered self result s1) = (Ret result', s2) →
  _test_harness_jobs s2 = _test_harness_jobs (registered self result s1) →
  let n := size (_test_harness_jobs s1) in
  ∃ s',
    (DXJob.new self fn_input fn_name kw;; DXJob.new self fn_input' fn_name' kw') s =
      (Ret (), s') ∧
    DXJob.get_id self s' = (Ret (job_id (S (S n))), s') ∧
    attr s' self "_test_harness_result" = Some result' ∧
    _test_harness_jobs s' !! job_id (S n) = Some self ∧
    _test_harness_jobs s' !! job_id (S (S n)) = Some self ∧
    size (_test_harness_jobs s') = S (S n).
Proof.
  intros Hm Hrun Hnum Henv Hrun' Hjobs n.
  destruct (numbered_insert _ self Hnum) as (Hfresh & Hsize & Hnum').
  fold n in Hfresh, Hsize, Hnum'.
  assert (_test_harness_jobs s2 = <[job_id (S n) := self]> (_test_harness_jobs s1)) as Hj2
    by exact Hjobs.
  assert (size (_test_harness_jobs s2) = S n) as Hsize2 by (by rewrite Hj2).
  rewrite <-Hj2 in Hnum'.
  destruct (numbered_insert _ self Hnum') as (Hfresh' & Hsize' & _).
  rewrite Hsize2 in Hfresh', Hsize'.
  assert (detached (registered self result s1)) as Hm'
    by (unfold detached; cbn; by rewrite Henv).
  exists (registered self result' s2). split.
  { unfold mbind, M_bind, bind.
    rewrite (new_detached_returns _ _ _ _ _ result s1) by done.
    by rewrite (new_detached_returns _ _ _ _ _ result' s2) by done. }
  split; [by rewrite get_id_registered, Hsize2|].
  split; [apply attr_store_eq|].
  change (_test_harness_jobs (registered self result' s2))
    with (<[job_id (S (size (_test_harness_jobs s2))) := self]> (_test_harness_jobs s2)).
  rewrite Hsize2. split; [|split; [apply lookup_insert_eq|exact Hsize']].
  rewrite lookup_insert_ne by (intros ?%(inj job_id); lia).
  rewrite Hj2. apply lookup_insert_eq.
Qed.

(** X16: A handle made in a program that is not a job of the platform is not
    told apart by [describe] and [terminate]: they send their request to
    the service, for the synthetic identity. *)
Theorem detached_handle_queries_service self fn_input fn_name kw s result s1 io kw' :
  detached s →
  dxpy_run_call fn_name fn_input s = (Ret result, s1) →
  let key := job_id (S (size (_test_harness_jobs s1))) in
  let s2 := registered self result s1 in
  DXJob.new self fn_input fn_name kw s = (Ret (), s2) ∧
  trace (DXJob.describe self io kw' s2).2 =
    trace s1 ++ [EvJobDescribe key (VDict [("io", VBool io)]) kw'] ∧
  trace (DXJob.terminate self kw' s2).2 = trace s1 ++ [EvJobTerminate key kw'].
Proof.
  intros Hm Hrun key s2.
  assert (attr s2 self "_dxid" = Some key) as Hb.
  { unfold s2, registered. rewrite attr_store, decide_False by (intros [_ ?]; done).
    apply attr_store_eq. }
  split; [by apply new_detached_returns|]. split.
  - rewrite (describe_bound _ _ _ _ key Hb).
    by destruct (api_jobDescribe _ _ _ _).
  - unfold DXJob.terminate, dxpy_api_jobTerminate, mbind, M_bind, bind.
    rewrite (getattr_instance _ _ _ _ Hb). unfold log, external, ret.
    cbn [ext heap _test_harness_jobs environ trace].
    by destruct (api_jobTerminate _ _ _) as [[?|?] ?].
Qed.

(** *** [set_id] *)

(** X17: Of two calls of [set_id] on a handle the second one decides: the
    state is the one the second call alone gives; in particular a second
    call with the same identity changes nothing. *)
Theorem set_id_last_wins self dxid dxid' s :
  (DXJob.set_id self dxid;; DXJob.set_id self dxid') s = DXJob.set_id self dxid' s ∧
  (DXJob.set_id self dxid;; DXJob.set_id self dxid) s = DXJob.set_id self dxid s.
Proof.
  assert (∀ v w, store self "_dxid" w (store self "_dxid" v s) = store self "_dxid" w s)
    as Hstore.
  { intros v w. unfold store, obj_dict. cbn [heap _test_harness_jobs environ ext trace].
    rewrite lookup_insert_eq. cbn [default from_option id].
    by rewrite !insert_insert_eq. }
  unfold DXJob.set_id, setattr, mbind, M_bind, bind. by rewrite !Hstore.
Qed.
End coverage.

(** ** The further properties on the two concrete programs *)

Section coverage_checks.
Import Harness.

Lemma new_dxjob_detached_witness :
  ∃ dxjob s',
    new_dxjob (VDict [("a", VInt 1); ("b", VInt 2)]) (VStr "add") ∅ (initial ∅ []) =
      (Ret dxjob, s') ∧
    (dxjob ∉ dom (heap (initial ∅ []))) ∧
    DXJob.get_id dxjob s' = (Ret (VStr "job-1"), s') ∧
    attr s' dxjob "_test_harness_result" = Some (VInt 3) ∧
    _test_harness_jobs s' !! VStr "job-1" = Some dxjob.
Proof.
  destruct (new_dxjob_detached (VDict [("a", VInt 1); ("b", VInt 2)]) (VStr "add") ∅
              (initial ∅ []) (VInt 3)
              (dxpy_run_call (VStr "add") (VDict [("a", VInt 1); ("b", VInt 2)])
                 (DXJob.construct VNone (initial ∅ [])).2).2)
    as (dxjob & s' & Hnew & Hfresh & Hid & Hres & Hreg & _).
  - reflexivity.
  - reflexivity.
  - vm_compute; reflexivity.
  - exists dxjob, s'. repeat split; assumption.
Defined.

Lemma new_dxjob_detached_raises_witness :
  new_dxjob VNone (VStr "crash") ∅ (initial ∅ []) =
    (Raise (Exn "RuntimeError" "crash"),
     (dxpy_run_call (VStr "crash") VNone (DXJob.construct VNone (initial ∅ [])).2).2).
Proof.
  apply new_dxjob_detached_raises.
  - reflexivity.
  - reflexivity.
  - vm_compute; reflexivity.
Defined.

Lemma new_dxjob_remote_witness :
  ∃ dxjob s',
    new_dxjob VNone (VStr "main") ∅ (initial in_job [Ret (VDict [("id", VStr "job-XYZ")])]) =
      (Ret dxjob, s') ∧
    DXJob.get_id dxjob s' = (Ret (VStr "job-XYZ"), s') ∧
    _test_harness_jobs s' = ∅.
Proof.
  destruct (proj1 (new_dxjob_remote VNone (VStr "main") ∅
                     (initial in_job [Ret (VDict [("id", VStr "job-XYZ")])])
                     (lookup_empty _) ltac:(by eexists))
              (VDict [("id", VStr "job-XYZ")]) [] (VStr "job-XYZ") eq_refl eq_refl)
    as (dxjob & s' & Hnew & _ & Hid & _ & Hjobs & _).
  exists dxjob, s'. repeat split; assumption.
Defined.

Lemma unbound_handle_calls_witness :
  DXJob.describe 1%positive true ∅ (DXJob.construct VNone (initial in_job [])).2 =
    (Raise (Exn "AttributeError" "_dxid"), (DXJob.construct VNone (initial in_job [])).2) ∧
  DXJob.wait_on_done 1 1%positive 2 5 ∅ (DXJob.construct VNone (initial in_job [])).2 =
    Some (Raise (Exn "AttributeError" "_dxid"),
          (DXJob.construct VNone (initial in_job [])).2).
Proof.
  destruct (unbound_handle_calls 1%positive ∅ (DXJob.construct VNone (initial in_job [])).2)
    as (Hd & _ & Hw).
  - reflexivity.
  - reflexivity.
  - vm_compute; reflexivity.
  - split; [apply Hd|apply Hw].
Defined.

Lemma get_state_missing_field_witness :
  DXJob.wait_on_done 1 1%positive 2 5 ∅ (remote [Ret (VDict [("id", VStr "job-XYZ")])]) =
    Some (Raise (Exn "KeyError" "state"),
          mkState (heap (remote [])) ∅ in_job [] [describe_event (VStr "job-XYZ") ∅]).
Proof.
  refine (proj2 (get_state_missing_field 1%positive ∅
            (remote [Ret (VDict [("id", VStr "job-XYZ")])]) (VStr "job-XYZ")
            [("id", VStr "job-XYZ")] [] eq_refl _ _ _) 0%nat 2 5).
  - vm_compute; reflexivity.
  - reflexivity.
  - intros v Hin. apply list_elem_of_singleton in Hin. discriminate.
Defined.

Lemma terminate_effect_witness :
  DXJob.terminate 1%positive ∅ (remote [Raise (Exn "DXAPIError" "not found")]) =
    (Raise (Exn "DXAPIError" "not found"),
     mkState (heap (remote [])) ∅ in_job [] [EvJobTerminate (VStr "job-XYZ") ∅]) ∧
  DXJob.terminate 1%positive ∅ (remote [Ret (VDict [("id", VStr "job-XYZ")])]) =
    (Ret (),
     mkState (heap (remote [])) ∅ in_job [] [EvJobTerminate (VStr "job-XYZ") ∅]).
Proof.
  split.
  - etrans.
    + apply (terminate_effect 1%positive ∅ (remote [Raise (Exn "DXAPIError" "not found")])
               (VStr "job-XYZ")).
      vm_compute; reflexivity.
    + vm_compute; reflexivity.
  - etrans.
    + apply (terminate_effect 1%positive ∅ (remote [Ret (VDict [("id", VStr "job-XYZ")])])
               (VStr "job-XYZ")).
      vm_compute; reflexivity.
    + vm_compute; reflexivity.
Defined.

Lemma wait_loop_invariant_witness :
  DXJob.wait_steps 3 1%positive 2 7 ∅ (DXJob.Running 0 Busy.bound) =
    DXJob.Running 6
      (config_state (DXJob.wait_steps 3 1%positive 2 7 ∅ (DXJob.Running 0 Busy.bound))) ∧
  6 = Z.of_nat 3 * 2 ∧
  count is_sleep
    (trace (config_state (DXJob.wait_steps 3 1%positive 2 7 ∅ (DXJob.Running 0 Busy.bound)))) =
    (count is_sleep (trace Busy.bound) + 3)%nat.
Proof.
  assert (DXJob.wait_steps 3 1%positive 2 7 ∅ (DXJob.Running 0 Busy.bound) =
    DXJob.Running 6
      (config_state (DXJob.wait_steps 3 1%positive 2 7 ∅ (DXJob.Running 0 Busy.bound))))
    as Hrun by (vm_compute; reflexivity).
  destruct (wait_loop_invariant 3 1%positive 2 7 ∅ Busy.bound 6 _ Hrun)
    as (He & _ & Hs & _).
  split; [exact Hrun|]. split; [exact He|exact Hs].
Defined.

Lemma wait_on_done_returns_after_witness :
  ∃ s1,
    DXJob.wait_on_done 2 1%positive 1 5 ∅ (remote [reports "running"; reports "done"]) =
      Some (Ret (), s1) ∧
    DXJob.wait_on_done 1 1%positive 1 5 ∅ (remote [reports "running"; reports "done"]) = None ∧
    trace s1 = [describe_event (VStr "job-XYZ") ∅; EvSleep 1;
                describe_event (VStr "job-XYZ") ∅].
Proof.
  assert (DXJob.wait_steps 1 1%positive 1 5 ∅
            (DXJob.Running 0 (remote [reports "running"; reports "done"])) =
          DXJob.Running 1
            (config_state (DXJob.wait_steps 1 1%positive 1 5 ∅
               (DXJob.Running 0 (remote [reports "running"; reports "done"])))))
    as Hrun by (vm_compute; reflexivity).
  eexists. 
  destruct (wait_on_done_returns_after (Ext := world) 1 1%positive 1 5 ∅ _ 1 _
              (VDict [("state", VStr "done")]) _ (lookup_empty _) Hrun
              ltac:(vm_compute; reflexivity) eq_refl) as (Hret & Hnot & _).
  split; [apply (Hret 2%nat); lia|]. split; [exact Hnot|].
  vm_compute; reflexivity.
Defined.

Lemma wait_on_done_describe_raises_witness :
  ∃ s1,
    DXJob.wait_on_done 2 1%positive 1 5 ∅
      (remote [reports "running"; Raise (Exn "DXAPIError" "service unavailable")]) =
      Some (Raise (Exn "DXAPIError" "service unavailable"), s1) ∧
    count is_sleep (trace s1) = 1%nat.
Proof.
  assert (DXJob.wait_steps 1 1%positive 1 5 ∅
            (DXJob.Running 0
               (remote [reports "running"; Raise (Exn "DXAPIError" "service unavailable")])) =
          DXJob.Running 1
            (config_state (DXJob.wait_steps 1 1%positive 1 5 ∅
               (DXJob.Running 0
                  (remote [reports "running";
                           Raise (Exn "DXAPIError" "service unavailable")])))))
    as Hrun by (vm_compute; reflexivity).
  eexists.
  destruct (wait_on_done_describe_raises (Ext := world) 1 1%positive 1 5 ∅ _ 1 _
              (Exn "DXAPIError" "service unavailable") _ (lookup_empty _) Hrun
              ltac:(vm_compute; reflexivity)) as (Hret & _ & Hs).
  split; [apply (Hret 2%nat); lia|exact Hs].
Defined.

Lemma wait_on_done_no_time_witness :
  DXJob.wait_on_done 1 1%positive 2 (-1) ∅ Busy.bound =
    Some (Raise DXJob.wait_timeout,
          mkState (heap Busy.bound) ∅ in_job () [describe_event (VStr "job-XYZ") ∅]).
Proof.
  refine (wait_on_done_no_time 1%positive 2 (-1) ∅ Busy.bound (VStr "job-XYZ")
            _ () (VStr "running") eq_refl _ _ eq_refl eq_refl _ 0%nat).
  - lia.
  - vm_compute; reflexivity.
  - by repeat split.
Defined.

Lemma new_remote_missing_id_witness :
  DXJob.new 1%positive VNone (VStr "main") ∅ (initial in_job [Ret (VDict [])]) =
    (Raise (Exn "KeyError" "id"),
     mkState ∅ ∅ in_job ([] : world)
       [EvJobNew (VDict [("input", VNone); ("function", VStr "main")]) ∅]).
Proof.
  refine (new_remote_missing_id 1%positive VNone (VStr "main") ∅
            (initial in_job [Ret (VDict [])]) [] [] _ eq_refl _).
  - by eexists.
  - intros v Hin. by apply not_elem_of_nil in Hin.
Defined.

Lemma new_detached_ignores_kwargs_witness :
  DXJob.new 1%positive (VDict [("a", VInt 1); ("b", VInt 2)]) (VStr "add") ∅
    (initial ∅ []) =
  DXJob.new 1%positive (VDict [("a", VInt 1); ("b", VInt 2)]) (VStr "add")
    {[ "project" := VStr "project-1" ]} (initial ∅ []).
Proof.
  apply (new_detached_ignores_kwargs 1%positive _ _ ∅ {[ "project" := VStr "project-1" ]}
           (initial ∅ [])).
  reflexivity.
Defined.

Lemma new_detached_extends_registry_witness :
  ∃ s',
    DXJob.new 1%positive (VDict [("a", VInt 1); ("b", VInt 2)]) (VStr "add") ∅
      (initial ∅ []) = (Ret (), s') ∧
    size (_test_harness_jobs s') = 1%nat.
Proof.
  destruct (new_detached_extends_registry 1%positive
              (VDict [("a", VInt 1); ("b", VInt 2)]) (VStr "add") ∅ (initial ∅ []) (VInt 3)
              (mkState ∅ ∅ ∅ ([] : world)
                 [EvRun (VStr "add") (VDict [("a", VInt 1); ("b", VInt 2)])]))
    as (s' & Hnew & _ & _ & Hsize & _).
  - reflexivity.
  - reflexivity.
  - vm_compute; reflexivity.
  - exists s'. split; [exact Hnew|exact Hsize].
Defined.
Lemma new_detached_twice_witness :
  ∃ s',
    (DXJob.new 1%positive (VDict [("a", VInt 1); ("b", VInt 2)]) (VStr "add") ∅;;
     DXJob.new 1%positive (VDict [("a", VInt 2); ("b", VInt 3)]) (VStr "add") ∅)
      (initial ∅ []) = (Ret (), s') ∧
    DXJob.get_id 1%positive s' = (Ret (VStr "job-2"), s') ∧
    attr s' 1%positive "_test_harness_result" = Some (VInt 5) ∧
    _test_harness_jobs s' !! VStr "job-1" = Some 1%positive ∧
    _test_harness_jobs s' !! VStr "job-2" = Some 1%positive.
Proof.
  destruct (new_detached_twice 1%positive
              (VDict [("a", VInt 1); ("b", VInt 2)]) (VStr "add") ∅
              (VDict [("a", VInt 2); ("b", VInt 3)]) (VStr "add") ∅
              (initial ∅ []) (VInt 3)
              (mkState ∅ ∅ ∅ ([] : world)
                 [EvRun (VStr "add") (VDict [("a", VInt 1); ("b", VInt 2)])])
              (VInt 5)
              (dxpy_run_call (VStr "add") (VDict [("a", VInt 2); ("b", VInt 3)])
                 (registered 1%positive (VInt 3)
                    (mkState ∅ ∅ ∅ ([] : world)
                       [EvRun (VStr "add") (VDict [("a", VInt 1); ("b", VInt 2)])]))).2)
    as (s' & Hnew & Hid & Hres & H1 & H2 & _).
  - reflexivity.
  - reflexivity.
  - vm_compute; reflexivity.
  - reflexivity.
  - vm_compute; reflexivity.
  - reflexivity.
  - exists s'. split; [exact Hnew|]. split; [exact Hid|]. split; [exact Hres|].
    split; [exact H1|exact H2].
Defined.

Lemma detached_handle_queries_service_witness :
  trace (DXJob.describe 1%positive true ∅
           (registered 1%positive (VInt 3)
              (mkState ∅ ∅ ∅ ([] : world)
                 [EvRun (VStr "add") (VDict [("a", VInt 1); ("b", VInt 2)])]))).2 =
    [EvRun (VStr "add") (VDict [("a", VInt 1); ("b", VInt 2)]);
     EvJobDescribe (VStr "job-1") (VDict [("io", VBool true)]) ∅].
Proof.
  exact (proj1 (proj2 (detached_handle_queries_service 1%positive
           (VDict [("a", VInt 1); ("b", VInt 2)]) (VStr "add") ∅ (initial ∅ []) (VInt 3)
           (mkState ∅ ∅ ∅ ([] : world)
              [EvRun (VStr "add") (VDict [("a", VInt 1); ("b", VInt 2)])])
           true ∅ eq_refl eq_refl))).
Defined.
Lemma wait_on_done_io_option_witness :
  is_Some (({[ "io" := VBool true ]} : kwargs) !! "io") ∧
  DXJob.wait_on_done 1 1%positive 2 5 {[ "io" := VBool true ]}
    (remote [reports "done"]) =
    Some (Raise (Exn "TypeError" "describe() got multiple values for keyword argument 'io'"),
          remote [reports "done"]).
Proof.
  assert (is_Some (({[ "io" := VBool true ]} : kwargs) !! "io")) as Hkw by (by eexists).
  split; [exact Hkw|].
  exact (proj2 (wait_on_done_io_option 1%positive {[ "io" := VBool true ]}
                  (remote [reports "done"]) Hkw) 0%nat 2 5).
Defined.
Lemma new_dxjob_self_option_witness :
  is_Some (({[ "self" := VInt 1 ]} : kwargs) !! "self") ∧
  new_dxjob (VDict [("a", VInt 1); ("b", VInt 2)]) (VStr "add") {[ "self" := VInt 1 ]}
    (initial ∅ []) =
    (Raise (Exn "TypeError" "new() got multiple values for keyword argument 'self'"),
     (DXJob.construct VNone (initial ∅ [])).2).
Proof.
  assert (is_Some (({[ "self" := VInt 1 ]} : kwargs) !! "self")) as Hkw by (by eexists).
  split; [exact Hkw|].
  exact (proj1 (new_dxjob_self_option (VDict [("a", VInt 1); ("b", VInt 2)]) (VStr "add")
                  {[ "self" := VInt 1 ]} (initial ∅ []) Hkw)).
Defined.
End coverage_checks.
